(** * Pagination example: page window, address parameters, infinite loader

    A shallow embedding of [src/app/pagination-example/page.tsx] and
    [src/app/pagination-example/components/pagination-toggle.tsx]
    (together with the [pagination.tsx] and [blog-post.tsx] components that
    are stored in the same source file).

    Conventions of the model.
    - [JS.number] is the exact model of the numbers the program handles:
      integers and [NaN]. It is the program's arithmetic as long as the
      values stay safe integers (magnitude at most [2^53]); [Binary64] models
      the products and differences of integer-valued doubles with their
      rounding and their infinities, and is the reference where that matters.
      The page arithmetic of the [Pagination] component, whose properties are
      stated for integer pages, is on [Z].
    - JavaScript strings are [string]; a character is a code unit below 256.
    - [URLSearchParams] is an ordered list of name/value pairs (order and
      duplicates matter for [set] and [delete]).
    - The [searchParams] object handed to the server component is a
      [gmap string paramValue].
    - [BlogPost] models a call of [loadMorePosts] on the callback of the
      current render; [BlogPostRender] keeps the callback of the last render
      apart from the state, with any number of suspended calls. *)

From Stdlib Require Import ZArith String Ascii List Lia DecimalString.
From Stdlib Require Import DecimalPos DecimalZ.
From stdpp Require Import base option list strings gmap sorting.

Local Open Scope string_scope.
Local Open Scope list_scope.
Local Open Scope Z_scope.

(* ===================================================================== *)
(** ** JavaScript numbers and strings *)
(* ===================================================================== *)

Module JS.

(** A number is an integer or not-a-number. *)
Inductive number : Type :=
| Num (z : Z)
| NaN.

Definition sub (a b : number) : number :=
  match a, b with
  | Num x, Num y => Num (x - y)
  | _, _ => NaN
  end.

Definition mul (a b : number) : number :=
  match a, b with
  | Num x, Num y => Num (x * y)
  | _, _ => NaN
  end.

(** [String(n)], as used by template literals and [toString()]. *)
Definition toString (n : number) : string :=
  match n with
  | Num z => NilZero.string_of_int (Z.to_int z)
  | NaN => "NaN"
  end.

(** White space skipped by [parseInt]: TAB, LF, VT, FF, CR, SP, NBSP. *)
Definition isWhiteSpace (c : ascii) : bool :=
  let n := nat_of_ascii c in
  ((9 <=? n)%nat && (n <=? 13)%nat) || (n =? 32)%nat || (n =? 160)%nat.

Fixpoint trimStart (s : string) : string :=
  match s with
  | String c rest => if isWhiteSpace c then trimStart rest else s
  | EmptyString => s
  end.

(** Value of a radix-10 digit. *)
Definition digitValue (c : ascii) : option Z :=
  let n := Z.of_nat (nat_of_ascii c) in
  if (48 <=? n) && (n <=? 57) then Some (n - 48) else None.

(** The longest prefix of decimal digits, read as an integer; [acc] is
    [None] until a first digit has been read. *)
Fixpoint digitsPrefix (s : string) (acc : option Z) : option Z :=
  match s with
  | String c rest =>
      match digitValue c with
      | Some d => digitsPrefix rest (Some (10 * default 0 acc + d))
      | None => acc
      end
  | EmptyString => acc
  end.

(** [parseInt(s, 10)]: leading white space is dropped, one sign is read,
    then the longest digit prefix; no digit gives [NaN]. *)
Definition parseInt (s : string) : number :=
  let trimmed := trimStart s in
  let '(sign, body) :=
    match trimmed with
    | String c rest =>
        if Ascii.eqb c "-" then (-1, rest)
        else if Ascii.eqb c "+" then (1, rest)
        else (1, trimmed)
    | EmptyString => (1, trimmed)
    end in
  match digitsPrefix body None with
  | Some m => Num (sign * m)
  | None => NaN
  end.


End JS.

(* ===================================================================== *)
(** ** Address state: [URLSearchParams], the router, the [searchParams] object *)
(* ===================================================================== *)

Module URLSearchParams.

(** The list of name/value pairs, in order. [searchParams.toString()]
    followed by [new URLSearchParams(...)] copies this list. *)
Definition getAll (name : string) (params : list (string * string)) : list string :=
  (filter (λ p, p.1 = name) params).*2.

(** [get]: the first value of the name, or [null]. *)
Definition get (name : string) (params : list (string * string)) : option string :=
  head (getAll name params).

(** [delete]: every pair of the name is removed. *)
Definition delete (name : string) (params : list (string * string))
  : list (string * string) :=
  filter (λ p, p.1 ≠ name) params.

(** [set]: the first pair of the name takes the value and the other pairs
    of the name are removed; without such a pair one is appended. *)
Fixpoint set (name value : string) (params : list (string * string))
  : list (string * string) :=
  match params with
  | [] => [(name, value)]
  | p :: rest =>
      if decide (p.1 = name) then (name, value) :: delete name rest
      else p :: set name value rest
  end.

End URLSearchParams.

Module Router.

(** The address state behind [useSearchParams] and [useRouter]: the
    current query and the navigations issued so far. *)
Record t : Type := { address : list (string * string);
                     pushed : list (list (string * string)) }.

(** [router.push(pathname + "?" + query)]. *)
Definition push (query : list (string * string)) (r : t) : t :=
  {| address := query; pushed := pushed r ++ [query] |}.

End Router.

Module Next.

(** A value of the [searchParams] object: [string | string[]]; an absent
    key is [undefined]. *)
Inductive paramValue : Type :=
| PStr (value : string)
| PArr (values : list string).

#[global] Instance paramValue_eq_dec : EqDecision paramValue.
Proof. solve_decision. Defined.

(** The framework gives the server component one entry per name: the value
    when the name occurs once in the query, the array of its values when it
    occurs several times. *)
Definition addParam (m : gmap string paramValue) (p : string * string)
  : gmap string paramValue :=
  <[ p.1 := match m !! p.1 with
            | None => PStr p.2
            | Some (PStr v) => PArr [v; p.2]
            | Some (PArr vs) => PArr (vs ++ [p.2])
            end ]> m.

Definition searchParamsOf (query : list (string * string)) : gmap string paramValue :=
  foldl addParam ∅ query.

End Next.

(* ===================================================================== *)
(** ** The remote data source *)
(* ===================================================================== *)

Module Api.

Record Post : Type := { id : Z; title : string; body : string }.

Record PostResponse : Type :=
  { posts : list Post; total : Z; limit : Z; skip : Z }.

(** The two parameters a fetch sends. *)
Record Request : Type := { reqLimit : JS.number; reqSkip : JS.number }.

(** [`https://dummyjson.com/posts?limit=${limit}&skip=${skip}`] *)
Definition url (r : Request) : string :=
  "https://dummyjson.com/posts?limit=" +:+ JS.toString (reqLimit r)
    +:+ "&skip=" +:+ JS.toString (reqSkip r).

(** What a paginated source holds at offset [skip], capped by [limit],
    for a collection of [total] items. *)
Definition pageSize (total limit skip : Z) : Z :=
  Z.min limit (Z.max 0 (total - skip)).

(** The answers of a paginated source of [total] items: a page has exactly
    the items that remain at the offset, at most [limit] of them. *)
Definition paginated (total : Z) (r : Request) (newPosts : list Post) : Prop :=
  match reqLimit r, reqSkip r with
  | JS.Num l, JS.Num s => Z.of_nat (length newPosts) = pageSize total l s
  | _, _ => False
  end.

End Api.

(* ===================================================================== *)
(** ** The [BlogPost] component (blog-post.tsx) *)
(* ===================================================================== *)

Module BlogPost.

Record Props : Type :=
  { data : Api.PostResponse; infiniteScroll : bool; totalItems : Z }.

(** The three [useState] cells. *)
Record State : Type :=
  { posts : list Api.Post; isLoading : bool; page : Z }.

Definition initialState (props : Props) : State :=
  {| posts := Api.posts (data props); isLoading := false; page := 1 |}.

(** [searchParams.get('limit') ? parseInt(..., 10) : data.limit]; the
    empty string is falsy. *)
Definition limit (searchParams : list (string * string)) (props : Props) : JS.number :=
  match URLSearchParams.get "limit" searchParams with
  | Some value =>
      if decide (value = "") then JS.Num (Api.limit (data props))
      else JS.parseInt value
  | None => JS.Num (Api.limit (data props))
  end.

(** [nextPage * limit - limit] *)
Definition skipOf (nextPage : Z) (limit : JS.number) : JS.number :=
  JS.sub (JS.mul (JS.Num nextPage) limit) limit.

(** A call of [loadMorePosts] suspended at its [await]: it holds its local
    [nextPage] and the request it sent. *)
Record Pending : Type := { nextPage : Z; request : Api.Request }.

Record Loader : Type := { state : State; awaiting : option Pending }.

Definition initial (props : Props) : Loader :=
  {| state := initialState props; awaiting := None |}.

(** [loadMorePosts] up to its [await], called on the callback of the
    current render (what it captured is the state): the guard,
    [setIsLoading(true)], and the fetch that is sent (or none). A call on
    the callback of an earlier render is in [BlogPostRender]. *)
Definition loadMorePosts (limit : JS.number) (props : Props) (l : Loader)
  : Loader * option Api.Request :=
  let st := state l in
  if isLoading st || (totalItems props <=? Z.of_nat (length (posts st))) then (l, None)
  else
    let nextPage := page st + 1 in
    let skip := skipOf nextPage limit in
    let req := {| Api.reqLimit := limit; Api.reqSkip := skip |} in
    ({| state := {| posts := posts st; isLoading := true; page := page st |};
        awaiting := Some {| nextPage := nextPage; request := req |} |},
     Some req).

(** [loadMorePosts] after its [await]: on a response the new posts are
    appended and the page counter takes [nextPage]; on a failure nothing
    but the log; [finally] clears the loading flag. *)
Definition settle (outcome : option (list Api.Post)) (l : Loader) : Loader :=
  match awaiting l with
  | None => l
  | Some p =>
      let st := state l in
      {| state :=
           match outcome with
           | Some newPosts =>
               {| posts := posts st ++ newPosts; isLoading := false;
                  page := nextPage p |}
           | None =>
               {| posts := posts st; isLoading := false; page := page st |}
           end;
         awaiting := None |}
  end.

Inductive Event : Type :=
| Intersecting                          (* the sentinel became visible *)
| Resolved (newPosts : list Api.Post)   (* the fetch answered *)
| Rejected.                             (* the fetch failed *)

(** One event of the component; the observer exists only with
    [infiniteScroll]. The second component is the fetch the event sent. *)
Definition handle (limit : JS.number) (props : Props) (l : Loader) (e : Event)
  : Loader * option Api.Request :=
  match e with
  | Intersecting =>
      if infiniteScroll props then loadMorePosts limit props l else (l, None)
  | Resolved newPosts => (settle (Some newPosts) l, None)
  | Rejected => (settle None l, None)
  end.

(** A sequence of events, with the fetches sent on the way. *)
Fixpoint run (limit : JS.number) (props : Props) (l : Loader) (events : list Event)
  : Loader * list Api.Request :=
  match events with
  | [] => (l, [])
  | e :: rest =>
      let '(l1, sent) := handle limit props l e in
      let '(l2, more) := run limit props l1 rest in
      (l2, option_list sent ++ more)
  end.

(** The loaders that the component reaches when every response to a request
    is one that [answers] allows. *)
Inductive reachable (answers : Api.Request → list Api.Post → Prop)
    (limit : JS.number) (props : Props) : Loader → Prop :=
| reach_initial : reachable answers limit props (initial props)
| reach_intersecting l :
    reachable answers limit props l →
    reachable answers limit props (handle limit props l Intersecting).1
| reach_resolved l p newPosts :
    reachable answers limit props l →
    awaiting l = Some p →
    answers (request p) newPosts →
    reachable answers limit props (handle limit props l (Resolved newPosts)).1
| reach_rejected l :
    reachable answers limit props l →
    reachable answers limit props (handle limit props l Rejected).1.

End BlogPost.

(* ===================================================================== *)
(** ** The [Pagination] component (pagination.tsx) *)
(* ===================================================================== *)

Module Pagination.

(** [Math.ceil(totalItems / limit)] for a non-zero integer [limit]; for
    [limit = 0] the program has an infinity or [NaN], which this integer
    model does not have. *)
Definition totalPages (totalItems limit : Z) : Z :=
  - ((- totalItems) / limit).

(** [createQueryString]; the result is kept as the list of pairs that
    [params.toString()] writes out. *)
Definition createQueryString (searchParams : list (string * string)) (limit : Z)
    (name value : string) : list (string * string) :=
  let params := searchParams in
  let params := URLSearchParams.set name value params in
  let params :=
    if decide (name ≠ "limit")
    then URLSearchParams.set "limit" (JS.toString (JS.Num limit)) params
    else params in
  params.

(** [navigateToPage] *)
Definition navigateToPage (totalPages limit : Z) (page : Z) (r : Router.t) : Router.t :=
  if (page <? 1) || (page >? totalPages) then r
  else
    let queryString :=
      createQueryString (Router.address r) limit "page" (JS.toString (JS.Num page)) in
    Router.push queryString r.

(** [for (let i = lo; i <= hi; i++) pages.push(i)], with the number of
    iterations bounded by [fuel]. *)
Fixpoint pushRange (fuel : nat) (i hi : Z) (pages : list Z) : list Z :=
  match fuel with
  | O => pages
  | S fuel' =>
      if i <=? hi then pushRange fuel' (i + 1) hi (pages ++ [i]) else pages
  end.

(** [getPageNumbers], a closure over [currentPage] and [totalPages] in the
    source; [-1] and [-2] stand for the two ellipses. *)
Definition getPageNumbers (currentPage totalPages : Z) : list Z :=
  let pages := [1] in
  let pages := if currentPage >? 4 then pages ++ [-1] else pages in
  let lo := Z.max 2 (currentPage - 2) in
  let hi := Z.min (totalPages - 1) (currentPage + 2) in
  let pages := pushRange (Z.to_nat (hi - lo + 1)) lo hi pages in
  let pages := if currentPage <? totalPages - 3 then pages ++ [-2] else pages in
  let pages := if totalPages >? 1 then pages ++ [totalPages] else pages in
  pages.

(** The render loop shows an entry [page < 0] as an ellipsis and any other
    entry as a page button. *)
Definition isEllipsis (page : Z) : bool := page <? 0.

End Pagination.

(* ===================================================================== *)
(** ** The [PaginationToggle] component (pagination-toggle.tsx) *)
(* ===================================================================== *)

Module PaginationToggle.

(** ['pagination' | 'infinite'] *)
Inductive Style : Type := pagination | infinite.

(** [togglePaginationStyle] *)
Definition togglePaginationStyle (currentStyle : Style) (r : Router.t) : Router.t :=
  let params := Router.address r in
  let params :=
    match currentStyle with
    | pagination => URLSearchParams.set "style" "infinite" params
    | infinite => URLSearchParams.delete "style" params
    end in
  Router.push params r.

End PaginationToggle.

(* ===================================================================== *)
(** ** The page (page.tsx) *)
(* ===================================================================== *)

Module Page.

(** [(page - 1) * limit] *)
Definition skipOf (limit page : JS.number) : JS.number :=
  JS.mul (JS.sub page (JS.Num 1)) limit.

Definition requestOf (limit page : JS.number) : Api.Request :=
  {| Api.reqLimit := limit; Api.reqSkip := skipOf limit page |}.

(** [getBlogPosts]: [fetch] maps the address fetched to the parsed
    response; [None] is a failed fetch, which the function lets through. *)
Definition getBlogPosts (fetch : string → option Api.PostResponse)
    (limit page : JS.number) : option Api.PostResponse :=
  fetch (Api.url (requestOf limit page)).

(** [searchParams.style !== 'infinite'] *)
Definition usePagination (searchParams : gmap string Next.paramValue) : bool :=
  bool_decide (searchParams !! "style" ≠ Some (Next.PStr "infinite")).

(** The body of the [forEach] over [Object.entries(searchParams)], on the
    pair [(currentPage, currentLimit)]. *)
Definition parseEntry (acc : JS.number * JS.number)
    (entry : string * Next.paramValue) : JS.number * JS.number :=
  let '(currentPage, currentLimit) := acc in
  match entry.2 with
  | Next.PStr value =>
      let currentPage :=
        if decide (entry.1 = "page") then JS.parseInt value else currentPage in
      let currentLimit :=
        if decide (entry.1 = "limit") then JS.parseInt value else currentLimit in
      (currentPage, currentLimit)
  | Next.PArr _ => acc
  end.

(** [currentPage] and [currentLimit] after the loop. *)
Definition parseParams (searchParams : gmap string Next.paramValue)
  : JS.number * JS.number :=
  foldl parseEntry (JS.Num 1, JS.Num 5) (map_to_list searchParams).

Definition currentStyle (searchParams : gmap string Next.paramValue)
  : PaginationToggle.Style :=
  if usePagination searchParams then PaginationToggle.pagination
  else PaginationToggle.infinite.

(** What the page renders below the toggle. *)
Inductive Rendered : Type :=
| Paged (blogPost : BlogPost.Props) (totalItems : Z) (limit currentPage : JS.number)
| Infinite (blogPost : BlogPost.Props).

(** [PaginationExample] *)
Definition PaginationExample (fetch : string → option Api.PostResponse)
    (searchParams : gmap string Next.paramValue)
  : option (PaginationToggle.Style * Rendered) :=
  let '(currentPage, currentLimit) := parseParams searchParams in
  match getBlogPosts fetch currentLimit currentPage with
  | None => None
  | Some blogPosts =>
      Some (currentStyle searchParams,
            if usePagination searchParams then
              Paged {| BlogPost.data := blogPosts;
                       BlogPost.infiniteScroll := false;
                       BlogPost.totalItems := 0 |}
                    (Api.total blogPosts) currentLimit currentPage
            else
              Infinite {| BlogPost.data := blogPosts;
                          BlogPost.infiniteScroll := true;
                          BlogPost.totalItems := Api.total blogPosts |})
  end.

(** A click on the toggle: the component was rendered with the style of
    the current address. *)
Definition clickToggle (r : Router.t) : Router.t :=
  PaginationToggle.togglePaginationStyle
    (currentStyle (Next.searchParamsOf (Router.address r))) r.

(** The display mode an address shows. *)
Definition displayMode (r : Router.t) : PaginationToggle.Style :=
  currentStyle (Next.searchParamsOf (Router.address r)).

End Page.

(* ===================================================================== *)
(** ** What the components render, and the source they read *)
(* ===================================================================== *)

Module PaginationView.

(** The results line: [Math.min((currentPage - 1) * limit + 1, totalItems)]
    and [Math.min(currentPage * limit, totalItems)]. *)
Definition showingFrom (totalItems limit currentPage : Z) : Z :=
  Z.min ((currentPage - 1) * limit + 1) totalItems.

Definition showingTo (totalItems limit currentPage : Z) : Z :=
  Z.min (currentPage * limit) totalItems.

(** The Previous button: [disabled={currentPage === 1}] and
    [onClick={() => navigateToPage(currentPage - 1)}]. *)
Definition previousDisabled (currentPage : Z) : bool := currentPage =? 1.

Definition onPrevious (totalPages limit currentPage : Z) (r : Router.t) : Router.t :=
  Pagination.navigateToPage totalPages limit (currentPage - 1) r.

(** The Next button: [disabled={currentPage >= totalPages}] and
    [onClick={() => navigateToPage(currentPage + 1)}]. *)
Definition nextDisabled (currentPage totalPages : Z) : bool :=
  currentPage >=? totalPages.

Definition onNext (totalPages limit currentPage : Z) (r : Router.t) : Router.t :=
  Pagination.navigateToPage totalPages limit (currentPage + 1) r.

(** The React key of entry [idx] of [pageNumbers]: [`ellipsis-${idx}`] for
    an ellipsis and [`page-${page}`] for a page button. *)
Definition tokenKey (idx : nat) (page : Z) : string :=
  if page <? 0 then "ellipsis-" +:+ JS.toString (JS.Num (Z.of_nat idx))
  else "page-" +:+ JS.toString (JS.Num page).

(** The button of the current page is highlighted: [currentPage === page]. *)
Definition isCurrent (currentPage page : Z) : bool := currentPage =? page.

(** A click on an entry: an ellipsis is a [span] without a handler, a page
    button calls [navigateToPage(page)]. *)
Definition onToken (totalPages limit page : Z) (r : Router.t) : Router.t :=
  if page <? 0 then r else Pagination.navigateToPage totalPages limit page r.

End PaginationView.

Module BlogPostView.

(** What stands in the sentinel [div]. *)
Inductive Indicator : Type := Spinner | ScrollToLoadMore | EndOfResults.

(** The sentinel is rendered only with [infiniteScroll]; it shows the
    spinner while loading, else the prompt while
    [posts.length < totalItems], else the end message. *)
Definition indicator (props : BlogPost.Props) (st : BlogPost.State)
  : option Indicator :=
  if BlogPost.infiniteScroll props then
    Some (if BlogPost.isLoading st then Spinner
          else if Z.of_nat (length (BlogPost.posts st)) <? BlogPost.totalItems props
               then ScrollToLoadMore
               else EndOfResults)
  else None.

End BlogPostView.

Module Source.

(** A remote source that serves a fixed collection: a request with integer
    limit and skip is answered by the [limit] items that follow the first
    [skip] ones. This is the contract of the external service, not code of
    this repository. *)
Definition served (collection : list Api.Post) (r : Api.Request)
    (newPosts : list Api.Post) : Prop :=
  match Api.reqLimit r, Api.reqSkip r with
  | JS.Num l, JS.Num s => newPosts = take (Z.to_nat l) (drop (Z.to_nat s) collection)
  | _, _ => False
  end.

End Source.

(* ===================================================================== *)
(** ** [BlogPost] with its render closures *)
(* ===================================================================== *)

Module BlogPostRender.

(** What the [loadMorePosts] of one render has captured:
    [useCallback(..., [isLoading, page, limit, posts.length, totalItems])].
    The limit and [totalItems] do not change between renders. *)
Record Captured : Type :=
  { isLoading : bool; page : Z; postsLength : nat }.

Definition capture (st : BlogPost.State) : Captured :=
  {| isLoading := BlogPost.isLoading st;
     page := BlogPost.page st;
     postsLength := length (BlogPost.posts st) |}.

(** The component between two events: the [useState] cells, the callback
    the observer currently calls (that of the last render), and the calls of
    [loadMorePosts] suspended at their [await], oldest first. *)
Record Component : Type :=
  { state : BlogPost.State;
    callback : Captured;
    inflight : list BlogPost.Pending }.

Definition initial (props : BlogPost.Props) : Component :=
  {| state := BlogPost.initialState props;
     callback := capture (BlogPost.initialState props);
     inflight := [] |}.

(** A render: the effect subscribes the callback of the current state. *)
Definition render (c : Component) : Component :=
  {| state := state c; callback := capture (state c); inflight := inflight c |}.

(** [loadMorePosts] up to its [await]. The guard, [nextPage] and [skip] read
    what the callback captured; [setIsLoading(true)] writes the state. *)
Definition loadMorePosts (limit : JS.number) (props : BlogPost.Props) (c : Component)
  : Component * option Api.Request :=
  let k := callback c in
  if isLoading k || (BlogPost.totalItems props <=? Z.of_nat (postsLength k))
  then (c, None)
  else
    let nextPage := page k + 1 in
    let skip := BlogPost.skipOf nextPage limit in
    let req := {| Api.reqLimit := limit; Api.reqSkip := skip |} in
    let st := state c in
    ({| state := {| BlogPost.posts := BlogPost.posts st;
                    BlogPost.isLoading := true;
                    BlogPost.page := BlogPost.page st |};
        callback := k;
        inflight := inflight c
                    ++ [{| BlogPost.nextPage := nextPage; BlogPost.request := req |}] |},
     Some req).

(** The suspended call number [i] resumes: [setPosts(prev => [...prev,
    ...newData.posts])] appends to the posts of the moment, [setPage] takes
    the call's own [nextPage], and [finally] clears the loading flag. *)
Definition settle (i : nat) (outcome : option (list Api.Post)) (c : Component)
  : Component :=
  match inflight c !! i with
  | None => c
  | Some p =>
      let st := state c in
      {| state :=
           match outcome with
           | Some newPosts =>
               {| BlogPost.posts := BlogPost.posts st ++ newPosts;
                  BlogPost.isLoading := false;
                  BlogPost.page := BlogPost.nextPage p |}
           | None =>
               {| BlogPost.posts := BlogPost.posts st;
                  BlogPost.isLoading := false;
                  BlogPost.page := BlogPost.page st |}
           end;
         callback := callback c;
         inflight := delete i (inflight c) |}
  end.

Inductive Event : Type :=
| Render                                         (* the component re-renders *)
| Intersecting                                   (* the observer calls back *)
| Resolved (i : nat) (newPosts : list Api.Post)  (* fetch [i] answered *)
| Rejected (i : nat).                            (* fetch [i] failed *)

Definition handle (limit : JS.number) (props : BlogPost.Props) (c : Component)
    (e : Event) : Component * option Api.Request :=
  match e with
  | Render => (render c, None)
  | Intersecting =>
      if BlogPost.infiniteScroll props then loadMorePosts limit props c
      else (c, None)
  | Resolved i newPosts => (settle i (Some newPosts) c, None)
  | Rejected i => (settle i None c, None)
  end.

Fixpoint run (limit : JS.number) (props : BlogPost.Props) (c : Component)
    (events : list Event) : Component * list Api.Request :=
  match events with
  | [] => (c, [])
  | e :: rest =>
      let '(c1, sent) := handle limit props c e in
      let '(c2, more) := run limit props c1 rest in
      (c2, option_list sent ++ more)
  end.

(** The components reached when the component has re-rendered before every
    call of the observer, and every response is one that [answers] allows. *)
Inductive reachableRerendered (answers : Api.Request → list Api.Post → Prop)
    (limit : JS.number) (props : BlogPost.Props) : Component → Prop :=
| rerendered_initial : reachableRerendered answers limit props (initial props)
| rerendered_intersecting c :
    reachableRerendered answers limit props c →
    reachableRerendered answers limit props
      (handle limit props (render c) Intersecting).1
| rerendered_resolved c i p newPosts :
    reachableRerendered answers limit props c →
    inflight c !! i = Some p →
    answers (BlogPost.request p) newPosts →
    reachableRerendered answers limit props
      (handle limit props c (Resolved i newPosts)).1
| rerendered_rejected c i :
    reachableRerendered answers limit props c →
    reachableRerendered answers limit props (handle limit props c (Rejected i)).1.

End BlogPostRender.

(* ===================================================================== *)
(** ** The arithmetic the program runs on: integer-valued doubles *)
(* ===================================================================== *)

Module Binary64.

(** A JavaScript number whose value is an integer, an infinity or [NaN].
    Products and differences of such numbers are again of this kind. The
    sign of zero is not kept: no operation modelled here tells [-0] from
    [0]. *)
Inductive number : Type :=
| Finite (z : Z)
| Infinity (negative : bool)
| NaN.

(** Round to nearest, ties to even, on a magnitude: below [2^53] every
    integer is kept, above it only 53 significant bits are. *)
Definition roundMagnitude (m : Z) : Z :=
  let e := Z.max 0 (Z.log2 m - 52) in
  let q := m / 2 ^ e in
  let r := m mod 2 ^ e in
  let q' :=
    if 2 * r <? 2 ^ e then q
    else if 2 ^ e <? 2 * r then q + 1
    else if Z.even q then q else q + 1 in
  q' * 2 ^ e.

(** The double nearest to an integer; from [2^1024] on the result is an
    infinity. *)
Definition ofZ (z : Z) : number :=
  let m := roundMagnitude (Z.abs z) in
  if 2 ^ 1024 <=? m then Infinity (z <? 0) else Finite (Z.sgn z * m).

(** [a * b] *)
Definition mul (a b : number) : number :=
  match a, b with
  | Finite x, Finite y => ofZ (x * y)
  | Finite x, Infinity n | Infinity n, Finite x =>
      if x =? 0 then NaN else Infinity (xorb n (x <? 0))
  | Infinity n, Infinity m => Infinity (xorb n m)
  | _, _ => NaN
  end.

(** [a - b] *)
Definition sub (a b : number) : number :=
  match a, b with
  | Finite x, Finite y => ofZ (x - y)
  | Finite _, Infinity n => Infinity (negb n)
  | Infinity n, Finite _ => Infinity n
  | Infinity n, Infinity m => if Bool.eqb n m then NaN else Infinity n
  | _, _ => NaN
  end.

(** [const skip = (page - 1) * limit] of [getBlogPosts]. *)
Definition getBlogPostsSkip (limit page : number) : number :=
  mul (sub page (Finite 1)) limit.

(** [const skip = nextPage * limit - limit] of [loadMorePosts]. *)
Definition loadMorePostsSkip (nextPage limit : number) : number :=
  sub (mul nextPage limit) limit.

End Binary64.

(* ===================================================================== *)
(** * Properties *)
(* ===================================================================== *)

(** The model on a few inputs. *)
Example parseInt_samples :
  JS.parseInt "12abc" = JS.Num 12 ∧ JS.parseInt "  -7" = JS.Num (-7)
  ∧ JS.parseInt "3.9" = JS.Num 3 ∧ JS.parseInt "abc1" = JS.NaN
  ∧ JS.parseInt "" = JS.NaN ∧ JS.parseInt "+" = JS.NaN.
Proof. repeat split; reflexivity. Qed.

Example url_sample :
  Api.url (Page.requestOf (JS.Num 5) (JS.Num 3)) =
    "https://dummyjson.com/posts?limit=5&skip=10".
Proof. reflexivity. Qed.

Example set_replaces_first_and_drops_others :
  URLSearchParams.set "a" "9" [("a", "1"); ("b", "2"); ("a", "3")] =
    [("a", "9"); ("b", "2")]
  ∧ URLSearchParams.set "c" "9" [("a", "1"); ("b", "2")] =
      [("a", "1"); ("b", "2"); ("c", "9")].
Proof. split; reflexivity. Qed.

Example totalPages_samples :
  Pagination.totalPages 12 5 = 3 ∧ Pagination.totalPages 10 5 = 2
  ∧ Pagination.totalPages 0 5 = 0.
Proof. repeat split; reflexivity. Qed.

(** With enough fuel the loop pushes exactly the integers [i .. hi]. *)
Lemma pushRange_seqZ (fuel : nat) (i hi : Z) (pages : list Z) :
  (Z.to_nat (hi - i + 1) <= fuel)%nat ->
  Pagination.pushRange fuel i hi pages = pages ++ seqZ i (hi - i + 1).
Proof.
  revert i pages.
  induction fuel as [|fuel IH]; intros i pages Hfuel; simpl.
  - rewrite seqZ_nil by lia. by rewrite app_nil_r.
  - destruct (Z.leb_spec i hi) as [Hle|Hgt].
    + rewrite IH by lia.
      rewrite (seqZ_cons i) by lia.
      rewrite <- app_assoc. simpl.
      do 3 f_equal; lia.
    + rewrite seqZ_nil by lia. by rewrite app_nil_r.
Qed.

(** The page window as one expression. *)
Lemma getPageNumbers_unfold (currentPage totalPages : Z) :
  Pagination.getPageNumbers currentPage totalPages =
    [1]
    ++ (if currentPage >? 4 then [-1] else [])
    ++ seqZ (Z.max 2 (currentPage - 2))
            (Z.min (totalPages - 1) (currentPage + 2)
             - Z.max 2 (currentPage - 2) + 1)
    ++ (if currentPage <? totalPages - 3 then [-2] else [])
    ++ (if totalPages >? 1 then [totalPages] else []).
Proof.
  unfold Pagination.getPageNumbers.
  rewrite pushRange_seqZ by lia.
  destruct (currentPage >? 4), (currentPage <? totalPages - 3),
    (totalPages >? 1); simpl; rewrite <- ?app_assoc, ?app_nil_r; done.
Qed.

(** Membership in the page window, case by case. *)
Lemma elem_of_getPageNumbers (currentPage totalPages x : Z) :
  x ∈ Pagination.getPageNumbers currentPage totalPages ↔
    x = 1
    ∨ (x = -1 ∧ 4 < currentPage)
    ∨ (Z.max 2 (currentPage - 2) ≤ x ≤ Z.min (totalPages - 1) (currentPage + 2))
    ∨ (x = -2 ∧ currentPage < totalPages - 3)
    ∨ (x = totalPages ∧ 1 < totalPages).
Proof.
  rewrite getPageNumbers_unfold.
  rewrite !elem_of_app, elem_of_seqZ, list_elem_of_singleton.
  destruct (Z.gtb_spec currentPage 4), (Z.ltb_spec currentPage (totalPages - 3)),
    (Z.gtb_spec totalPages 1);
    rewrite ?list_elem_of_singleton, ?elem_of_nil; lia.
Qed.

(** No entry of the page window occurs twice, whatever the two pages are:
    the loop stays within [2 .. totalPages - 1]. *)
Lemma getPageNumbers_NoDup (currentPage totalPages : Z) :
  NoDup (Pagination.getPageNumbers currentPage totalPages).
Proof.
  rewrite getPageNumbers_unfold.
  destruct (Z.gtb_spec currentPage 4), (Z.ltb_spec currentPage (totalPages - 3)),
    (Z.gtb_spec totalPages 1);
    repeat (apply NoDup_app; split_and!);
    try apply NoDup_seqZ; try apply NoDup_singleton; try apply NoDup_nil_2;
    intros x; rewrite ?elem_of_app, ?elem_of_seqZ, ?list_elem_of_singleton,
                ?elem_of_nil; lia.
Qed.

(** C1. For every [totalPages ≥ 1] and every [currentPage] between 1 and
    [totalPages], the page window holds the page number 1 and, when
    [totalPages > 1], the page number [totalPages]; both are shown as page
    buttons, not as ellipses. *)
Theorem window_has_first_and_last (totalPages currentPage : Z) :
  1 ≤ totalPages →
  1 ≤ currentPage ≤ totalPages →
  let pages := Pagination.getPageNumbers currentPage totalPages in
  (1 ∈ pages ∧ Pagination.isEllipsis 1 = false)
  ∧ (1 < totalPages →
     totalPages ∈ pages ∧ Pagination.isEllipsis totalPages = false).
Proof.
  intros Htotal Hcurrent pages. subst pages.
  rewrite !elem_of_getPageNumbers. unfold Pagination.isEllipsis.
  split; [split; [by left | done]|].
  intros Hmany. split; [lia|]. apply Z.ltb_ge. lia.
Qed.

Lemma window_has_first_and_last_witness :
  let pages := Pagination.getPageNumbers 7 20 in
  (1 ∈ pages ∧ Pagination.isEllipsis 1 = false)
  ∧ (1 < 20 → 20 ∈ pages ∧ Pagination.isEllipsis 20 = false).
Proof. apply (window_has_first_and_last 20 7); lia. Defined.

(** C3, the claim as stated, refuted: there are no [totalPages ≥ 1] and
    [currentPage] in range for which the page window holds the same page
    number at two positions. *)
Lemma window_duplicate_refuted :
  ¬ ∃ (totalPages currentPage p : Z) (i j : nat),
      1 ≤ totalPages ∧ 1 ≤ currentPage ≤ totalPages
      ∧ Pagination.isEllipsis p = false ∧ i ≠ j
      ∧ Pagination.getPageNumbers currentPage totalPages !! i = Some p
      ∧ Pagination.getPageNumbers currentPage totalPages !! j = Some p.
Proof.
  intros (totalPages & currentPage & p & i & j & _ & _ & _ & Hij & Hi & Hj).
  apply Hij.
  exact (proj1 (NoDup_alt _) (getPageNumbers_NoDup currentPage totalPages)
           i j p Hi Hj).
Qed.

(** C3, amended. For every [totalPages ≥ 1] and every [currentPage] between
    1 and [totalPages], no entry of the page window occurs twice: the numeric
    range is clamped to [2 .. totalPages - 1] and so never meets the first or
    the last page. *)
Theorem window_has_no_duplicate (totalPages currentPage : Z) :
  1 ≤ totalPages →
  1 ≤ currentPage ≤ totalPages →
  NoDup (Pagination.getPageNumbers currentPage totalPages).
Proof. intros _ _. apply getPageNumbers_NoDup. Qed.

Lemma window_has_no_duplicate_witness :
  NoDup (Pagination.getPageNumbers 2 3).
Proof. apply (window_has_no_duplicate 3 2); lia. Defined.

(** C4. For every [totalPages ≥ 1] and [currentPage] between 1 and
    [totalPages]: with [currentPage ≤ 4] the page window holds no leading
    ellipsis ([-1]), and with [currentPage ≥ totalPages - 3] it holds no
    trailing ellipsis ([-2]). *)
Theorem window_ellipses_absent (totalPages currentPage : Z) :
  1 ≤ totalPages →
  1 ≤ currentPage ≤ totalPages →
  (currentPage ≤ 4 → -1 ∉ Pagination.getPageNumbers currentPage totalPages)
  ∧ (totalPages - 3 ≤ currentPage →
     -2 ∉ Pagination.getPageNumbers currentPage totalPages).
Proof.
  intros Htotal Hcurrent.
  split; intros Hnear; rewrite elem_of_getPageNumbers; lia.
Qed.

Lemma window_ellipses_absent_witness :
  (3 ≤ 4 → -1 ∉ Pagination.getPageNumbers 3 6)
  ∧ (6 - 3 ≤ 3 → -2 ∉ Pagination.getPageNumbers 3 6).
Proof. apply (window_ellipses_absent 6 3); lia. Defined.

(** C5. The page window of the three examples: 10 pages at page 5, 3 pages
    at page 2, and a single page. *)
Theorem window_examples :
  Pagination.getPageNumbers 5 10 = [1; -1; 3; 4; 5; 6; 7; -2; 10]
  ∧ Pagination.getPageNumbers 2 3 = [1; 2; 3]
  ∧ Pagination.getPageNumbers 1 1 = [1].
Proof. repeat split; reflexivity. Qed.

(* --------------------------------------------------------------------- *)
(** ** Address parameters *)
(* --------------------------------------------------------------------- *)

Lemma getAll_cons (name : string) (p : string * string) (params : list (string * string)) :
  URLSearchParams.getAll name (p :: params) =
    (if decide (p.1 = name) then [p.2] else []) ++ URLSearchParams.getAll name params.
Proof.
  unfold URLSearchParams.getAll. rewrite filter_cons.
  destruct (decide (p.1 = name)); done.
Qed.

Lemma getAll_snoc (name : string) (p : string * string) (params : list (string * string)) :
  URLSearchParams.getAll name (params ++ [p]) =
    URLSearchParams.getAll name params ++ (if decide (p.1 = name) then [p.2] else []).
Proof.
  unfold URLSearchParams.getAll. rewrite filter_app, fmap_app. f_equal.
  rewrite filter_cons, filter_nil. destruct (decide (p.1 = name)); done.
Qed.

Lemma getAll_delete_eq (name : string) (params : list (string * string)) :
  URLSearchParams.getAll name (URLSearchParams.delete name params) = [].
Proof.
  induction params as [|p params IH]; [done|].
  unfold URLSearchParams.delete in *. rewrite filter_cons.
  destruct (decide (p.1 ≠ name)) as [Hne|Heq]; [|done].
  rewrite getAll_cons, IH. by destruct (decide (p.1 = name)).
Qed.

Lemma getAll_delete_ne (name other : string) (params : list (string * string)) :
  other ≠ name →
  URLSearchParams.getAll other (URLSearchParams.delete name params) =
    URLSearchParams.getAll other params.
Proof.
  intros Hother. induction params as [|p params IH]; [done|].
  unfold URLSearchParams.delete in *. rewrite filter_cons.
  destruct (decide (p.1 ≠ name)) as [Hne|Heq].
  - by rewrite !getAll_cons, IH.
  - rewrite getAll_cons, IH. apply dec_stable in Heq.
    destruct (decide (p.1 = other)); [congruence | done].
Qed.

Lemma getAll_set_eq (name value : string) (params : list (string * string)) :
  URLSearchParams.getAll name (URLSearchParams.set name value params) = [value].
Proof.
  induction params as [|p params IH]; simpl.
  - rewrite getAll_cons. simpl. by rewrite decide_True.
  - destruct (decide (p.1 = name)) as [Heq|Hne].
    + rewrite getAll_cons. simpl. by rewrite decide_True, getAll_delete_eq.
    + by rewrite getAll_cons, decide_False, IH.
Qed.

Lemma getAll_set_ne (name other value : string) (params : list (string * string)) :
  other ≠ name →
  URLSearchParams.getAll other (URLSearchParams.set name value params) =
    URLSearchParams.getAll other params.
Proof.
  intros Hother. induction params as [|p params IH]; simpl.
  - rewrite getAll_cons. simpl. by rewrite decide_False.
  - destruct (decide (p.1 = name)) as [Heq|Hne].
    + rewrite !getAll_cons. simpl.
      rewrite getAll_delete_ne by done.
      rewrite !decide_False by congruence. done.
    + by rewrite !getAll_cons, IH.
Qed.

(** The entry the server component sees for a name, from the values the
    query holds for it. *)
Lemma lookup_searchParamsOf (name : string) (query : list (string * string)) :
  Next.searchParamsOf query !! name =
    match URLSearchParams.getAll name query with
    | [] => None
    | [value] => Some (Next.PStr value)
    | values => Some (Next.PArr values)
    end.
Proof.
  unfold Next.searchParamsOf.
  induction query as [|p query IH] using rev_ind; [done|].
  rewrite foldl_app, getAll_snoc. simpl. unfold Next.addParam at 1.
  destruct (decide (p.1 = name)) as [->|Hne].
  - rewrite lookup_insert_eq, IH.
    destruct (URLSearchParams.getAll name query) as [|v [|w vs]]; done.
  - rewrite lookup_insert_ne by done. rewrite IH. by rewrite app_nil_r.
Qed.

(** The [forEach] over entries with distinct keys leaves in [currentPage]
    and [currentLimit] the parsed single-string entry of the key, and the
    value they had before when there is no such entry. *)
Lemma foldl_parseEntry (entries : list (string * Next.paramValue))
    (acc : JS.number * JS.number) :
  NoDup entries.*1 →
  foldl Page.parseEntry acc entries =
    (match (list_to_map entries : gmap string Next.paramValue) !! "page" with
     | Some (Next.PStr value) => JS.parseInt value
     | _ => acc.1
     end,
     match (list_to_map entries : gmap string Next.paramValue) !! "limit" with
     | Some (Next.PStr value) => JS.parseInt value
     | _ => acc.2
     end).
Proof.
  revert acc. induction entries as [|[key value] entries IH]; intros acc Hkeys.
  - by destruct acc.
  - apply NoDup_cons in Hkeys as [Hfresh Hkeys]. simpl in Hfresh.
    apply (not_elem_of_list_to_map_1 (M := gmap string)) in Hfresh.
    cbn [foldl fold_left]. rewrite IH by done.
    cbn [list_to_map foldr]. simpl.
    destruct acc as [currentPage currentLimit].
    f_equal.
    + destruct (decide (key = "page")) as [->|Hne].
      * rewrite lookup_insert_eq, Hfresh.
        unfold Page.parseEntry. simpl. by destruct value.
      * rewrite lookup_insert_ne by done.
        unfold Page.parseEntry. simpl.
        destruct value; simpl; rewrite ?decide_False by done; done.
    + destruct (decide (key = "limit")) as [->|Hne].
      * rewrite lookup_insert_eq, Hfresh.
        unfold Page.parseEntry. simpl. by destruct value.
      * rewrite lookup_insert_ne by done.
        unfold Page.parseEntry. simpl.
        destruct value; simpl; rewrite ?decide_False by done;
          by destruct (decide (key = "page")).
Qed.

Lemma parseParams_lookup (searchParams : gmap string Next.paramValue) :
  Page.parseParams searchParams =
    (match searchParams !! "page" with
     | Some (Next.PStr value) => JS.parseInt value
     | _ => JS.Num 1
     end,
     match searchParams !! "limit" with
     | Some (Next.PStr value) => JS.parseInt value
     | _ => JS.Num 5
     end).
Proof.
  unfold Page.parseParams.
  rewrite foldl_parseEntry by apply NoDup_fst_map_to_list.
  by rewrite list_to_map_to_list.
Qed.




(** The display mode of an address, from the values of its [style] name. *)
Lemma displayMode_address (r : Router.t) :
  Page.displayMode r =
    if decide (URLSearchParams.getAll "style" (Router.address r) = ["infinite"])
    then PaginationToggle.infinite else PaginationToggle.pagination.
Proof.
  unfold Page.displayMode, Page.currentStyle, Page.usePagination.
  rewrite lookup_searchParamsOf.
  destruct (URLSearchParams.getAll "style" (Router.address r)) as [|v [|w vs]].
  - rewrite bool_decide_eq_true_2 by done. by rewrite decide_False.
  - destruct (decide (v = "infinite")) as [->|Hv].
    + rewrite bool_decide_eq_false_2 by (intros Hne; by apply Hne).
      by rewrite decide_True.
    + rewrite bool_decide_eq_true_2 by congruence.
      rewrite decide_False by congruence. done.
  - rewrite bool_decide_eq_true_2 by done. by rewrite decide_False.
Qed.

(** Integers of magnitude up to [2^53] are doubles. *)
Lemma ofZ_exact (z : Z) :
  Z.abs z ≤ 2 ^ 53 → Binary64.ofZ z = Binary64.Finite z.
Proof.
  intros Hz. unfold Binary64.ofZ.
  assert (Binary64.roundMagnitude (Z.abs z) = Z.abs z) as ->.
  { destruct (decide (Z.abs z = 2 ^ 53)) as [->|Hne]; [reflexivity|].
    unfold Binary64.roundMagnitude.
    assert (Z.log2 (Z.abs z) - 52 ≤ 0) as Hlog.
    { destruct (decide (Z.abs z = 0)) as [->|Hpos]; [simpl; lia|].
      assert (Z.log2 (Z.abs z) < 53) by (apply Z.log2_lt_pow2; lia). lia. }
    rewrite Z.max_l by lia. simpl (2 ^ 0).
    rewrite Z.mod_1_r, Z.div_1_r. simpl. lia. }
  assert (2 ^ 53 < 2 ^ 1024) as Hbig by (apply Z.pow_lt_mono_r; lia).
  destruct (Z.leb_spec (2 ^ 1024) (Z.abs z)); [lia|].
  f_equal. lia.
Qed.

(** C6, the claim as stated, refuted. At page 3 and limit 3002399751580331
    (both below [2^53]) the product [3 * limit] is [2^53 + 1], which is not a
    double and is rounded to [2^53]: the loader's skip is one less than the
    skip of the paged client. *)
Lemma skips_differ_above_safe_integers :
  1 ≤ 3 ∧ 0 < 3002399751580331
  ∧ Binary64.getBlogPostsSkip
      (Binary64.Finite 3002399751580331) (Binary64.Finite 3)
    = Binary64.Finite 6004799503160662
  ∧ Binary64.loadMorePostsSkip
      (Binary64.Finite 3) (Binary64.Finite 3002399751580331)
    = Binary64.Finite 6004799503160661
  ∧ Binary64.getBlogPostsSkip
      (Binary64.Finite 3002399751580331) (Binary64.Finite 3)
    ≠ Binary64.loadMorePostsSkip
        (Binary64.Finite 3) (Binary64.Finite 3002399751580331).
Proof.
  assert (Binary64.getBlogPostsSkip
            (Binary64.Finite 3002399751580331) (Binary64.Finite 3)
          = Binary64.Finite 6004799503160662) as Hpaged
    by (vm_compute; reflexivity).
  assert (Binary64.loadMorePostsSkip
            (Binary64.Finite 3) (Binary64.Finite 3002399751580331)
          = Binary64.Finite 6004799503160661) as Hloader
    by (vm_compute; reflexivity).
  split_and!; [lia | lia | exact Hpaged | exact Hloader |].
  rewrite Hpaged, Hloader. discriminate.
Qed.

(** C6, amended. For every page ≥ 1 and limit > 0 whose product
    [page * limit] is at most [2^53], the skip of the paged client,
    [(page - 1) * limit], is the skip of the infinite loader for the same
    page number, [page * limit - limit], both computed on doubles; it is the
    exact integer [(page - 1) * limit], which is also what the exact model
    gives; for page 3 and limit 5 both are 10. *)
Theorem skip_paged_equals_incremental_when_safe (page limit : Z) :
  1 ≤ page →
  0 < limit →
  page * limit ≤ 2 ^ 53 →
  Binary64.getBlogPostsSkip (Binary64.Finite limit) (Binary64.Finite page)
    = Binary64.loadMorePostsSkip (Binary64.Finite page) (Binary64.Finite limit)
  ∧ Binary64.getBlogPostsSkip (Binary64.Finite limit) (Binary64.Finite page)
      = Binary64.Finite ((page - 1) * limit)
  ∧ Page.skipOf (JS.Num limit) (JS.Num page) = JS.Num ((page - 1) * limit)
  ∧ BlogPost.skipOf page (JS.Num limit) = JS.Num ((page - 1) * limit)
  ∧ Binary64.getBlogPostsSkip (Binary64.Finite 5) (Binary64.Finite 3)
      = Binary64.Finite 10
  ∧ Binary64.loadMorePostsSkip (Binary64.Finite 3) (Binary64.Finite 5)
      = Binary64.Finite 10.
Proof.
  intros Hpage Hlimit Hsafe.
  assert (page ≤ page * limit) by nia.
  assert (0 ≤ (page - 1) * limit ≤ page * limit) by nia.
  assert (Binary64.getBlogPostsSkip (Binary64.Finite limit) (Binary64.Finite page)
          = Binary64.Finite ((page - 1) * limit)) as Hpaged.
  { unfold Binary64.getBlogPostsSkip. cbn [Binary64.sub].
    rewrite ofZ_exact by lia. cbn [Binary64.mul]. apply ofZ_exact. lia. }
  assert (Binary64.loadMorePostsSkip (Binary64.Finite page) (Binary64.Finite limit)
          = Binary64.Finite ((page - 1) * limit)) as Hloader.
  { unfold Binary64.loadMorePostsSkip. cbn [Binary64.mul].
    rewrite ofZ_exact by lia. cbn [Binary64.sub].
    rewrite ofZ_exact by lia. f_equal. lia. }
  split_and!.
  - by rewrite Hpaged, Hloader.
  - exact Hpaged.
  - reflexivity.
  - unfold BlogPost.skipOf. simpl. f_equal. lia.
  - vm_compute. reflexivity.
  - vm_compute. reflexivity.
Qed.

Lemma skip_paged_equals_incremental_when_safe_witness :
  Binary64.getBlogPostsSkip (Binary64.Finite 5) (Binary64.Finite 3)
    = Binary64.loadMorePostsSkip (Binary64.Finite 3) (Binary64.Finite 5)
  ∧ Binary64.getBlogPostsSkip (Binary64.Finite 5) (Binary64.Finite 3)
      = Binary64.Finite ((3 - 1) * 5).
Proof.
  destruct (skip_paged_equals_incremental_when_safe 3 5) as (Hsame & Hvalue & _);
    [lia | lia | vm_compute; discriminate |].
  split; [exact Hsame | exact Hvalue].
Defined.

(** C7. Two clicks on the style toggle bring any address back to the display
    mode it had, one click changes the mode, and a toggle (whatever style it
    was rendered with) leaves the values of [page] and [limit] in the address
    as they were, hence also the page and the limit the page component reads. *)
Theorem toggle_twice_restores_mode (r : Router.t) :
  Page.displayMode (Page.clickToggle (Page.clickToggle r)) = Page.displayMode r
  ∧ Page.displayMode (Page.clickToggle r) ≠ Page.displayMode r
  ∧ (∀ style,
       let r' := PaginationToggle.togglePaginationStyle style r in
       URLSearchParams.getAll "page" (Router.address r') =
         URLSearchParams.getAll "page" (Router.address r)
       ∧ URLSearchParams.getAll "limit" (Router.address r') =
           URLSearchParams.getAll "limit" (Router.address r)
       ∧ Page.parseParams (Next.searchParamsOf (Router.address r')) =
           Page.parseParams (Next.searchParamsOf (Router.address r))).
Proof.
  assert (∀ style name, name ≠ "style" →
            URLSearchParams.getAll name
              (Router.address (PaginationToggle.togglePaginationStyle style r)) =
            URLSearchParams.getAll name (Router.address r)) as Hkeep.
  { intros [] name Hname; simpl.
    - by apply getAll_set_ne.
    - by apply getAll_delete_ne. }
  split_and!.
  - unfold Page.clickToggle. fold (Page.displayMode r).
    set (r1 := PaginationToggle.togglePaginationStyle (Page.displayMode r) r).
    fold (Page.displayMode r1).
    assert (Page.displayMode r1 ≠ Page.displayMode r) as Hflip.
    { subst r1. rewrite (displayMode_address (PaginationToggle.togglePaginationStyle _ _)).
      destruct (Page.displayMode r); simpl.
      - by rewrite getAll_set_eq, decide_True.
      - by rewrite getAll_delete_eq, decide_False. }
    rewrite (displayMode_address (PaginationToggle.togglePaginationStyle _ _)).
    destruct (Page.displayMode r1), (Page.displayMode r); simpl; try done.
    + by rewrite getAll_set_eq, decide_True.
    + by rewrite getAll_delete_eq, decide_False.
  - unfold Page.clickToggle. fold (Page.displayMode r).
    rewrite (displayMode_address (PaginationToggle.togglePaginationStyle _ _)).
    destruct (Page.displayMode r); simpl.
    + by rewrite getAll_set_eq, decide_True.
    + by rewrite getAll_delete_eq, decide_False.
  - intros style r'. subst r'.
    split_and!; try (by apply Hkeep).
    rewrite !parseParams_lookup, !lookup_searchParamsOf.
    by rewrite !Hkeep.
Qed.

(** C8. A navigation to a page below 1 or above [totalPages] does nothing:
    no navigation is pushed and the address is the one before. *)
Theorem navigate_out_of_range (totalPages limit page : Z) (r : Router.t) :
  page < 1 ∨ totalPages < page →
  Pagination.navigateToPage totalPages limit page r = r.
Proof.
  intros Hout. unfold Pagination.navigateToPage.
  destruct (Z.ltb_spec page 1), (Z.gtb_spec page totalPages); simpl; try done.
  lia.
Qed.

Lemma navigate_out_of_range_witness :
  (0 < 1 ∨ 10 < 0)
  ∧ Pagination.navigateToPage 10 5 0
      {| Router.address := [("page", "1"); ("limit", "5")]; Router.pushed := [] |} =
    {| Router.address := [("page", "1"); ("limit", "5")]; Router.pushed := [] |}.
Proof. split; [lia | apply (navigate_out_of_range 10 5 0); lia]. Defined.

(** A navigation to a page within [1 .. totalPages] is pushed, with [page]
    set to the target and [limit] set to the current limit. *)
Lemma navigate_in_range (totalPages limit page : Z) (r : Router.t) :
  1 ≤ page ≤ totalPages →
  let r' := Pagination.navigateToPage totalPages limit page r in
  Router.pushed r' = Router.pushed r ++ [Router.address r']
  ∧ URLSearchParams.getAll "page" (Router.address r') = [JS.toString (JS.Num page)]
  ∧ URLSearchParams.getAll "limit" (Router.address r') = [JS.toString (JS.Num limit)].
Proof.
  intros Hin r'. subst r'. unfold Pagination.navigateToPage.
  destruct (Z.ltb_spec page 1), (Z.gtb_spec page totalPages); try lia. simpl.
  unfold Pagination.createQueryString. rewrite decide_True by done.
  split_and!; [done| |].
  - by rewrite getAll_set_ne, getAll_set_eq.
  - by rewrite getAll_set_eq.
Qed.



(* --------------------------------------------------------------------- *)
(** ** The infinite loader *)
(* --------------------------------------------------------------------- *)

(** The guard of [loadMorePosts] lets a call through when nothing is loading
    and fewer than [totalItems] posts are held. *)
Lemma loadMorePosts_sends (limit : JS.number) (props : BlogPost.Props)
    (l : BlogPost.Loader) :
  BlogPost.isLoading (BlogPost.state l) = false →
  Z.of_nat (length (BlogPost.posts (BlogPost.state l))) < BlogPost.totalItems props →
  BlogPost.loadMorePosts limit props l =
    let st := BlogPost.state l in
    let req := {| Api.reqLimit := limit;
                  Api.reqSkip := BlogPost.skipOf (BlogPost.page st + 1) limit |} in
    ({| BlogPost.state := {| BlogPost.posts := BlogPost.posts st;
                             BlogPost.isLoading := true;
                             BlogPost.page := BlogPost.page st |};
        BlogPost.awaiting := Some {| BlogPost.nextPage := BlogPost.page st + 1;
                                     BlogPost.request := req |} |},
     Some req).
Proof.
  intros Hidle Hmore. unfold BlogPost.loadMorePosts. rewrite Hidle. simpl.
  destruct (Z.leb_spec (BlogPost.totalItems props)
              (Z.of_nat (length (BlogPost.posts (BlogPost.state l))))); [lia | done].
Qed.

(** The guard stops a call while a load is in flight or once [totalItems]
    posts are held. *)
Lemma loadMorePosts_stopped (limit : JS.number) (props : BlogPost.Props)
    (l : BlogPost.Loader) :
  BlogPost.isLoading (BlogPost.state l) = true
  ∨ BlogPost.totalItems props ≤ Z.of_nat (length (BlogPost.posts (BlogPost.state l))) →
  BlogPost.loadMorePosts limit props l = (l, None).
Proof.
  intros Hstop. unfold BlogPost.loadMorePosts.
  destruct (BlogPost.isLoading (BlogPost.state l)); [done|]. simpl.
  destruct (Z.leb_spec (BlogPost.totalItems props)
              (Z.of_nat (length (BlogPost.posts (BlogPost.state l))))); [done|].
  destruct Hstop; [done | lia].
Qed.

(** C2. The code at the failing inputs. With 12 items, limit 5 and a first
    page of 5 posts, loads that each follow a render go as the claim says:
    two answered loads give 12 posts at page counter 3 and a third trigger
    sends nothing. But the guard of [loadMorePosts] reads the [isLoading] and
    [posts.length] of the render that made the callback: when the observer
    calls the same callback twice before a render, both calls pass the
    guard, both fetch [skip=5], and both answers are appended; the loader
    holds 15 posts of 12, posts 6 to 10 twice. And at the address
    [?style=infinite&limit=3&limit=7] the page fetches the first page with
    the default limit 5 while the loader reads the limit 3, and holds
    5 + 3 + 3 + 3 = 14 posts of 12 although every trigger follows a render. *)
Theorem loader_exceeds_total :
  let post := λ i, {| Api.id := i; Api.title := "title"; Api.body := "body" |} in
  let blogPosts := {| Api.posts := post <$> seqZ 1 5; Api.total := 12;
                      Api.limit := 5; Api.skip := 0 |} in
  let props := {| BlogPost.data := blogPosts; BlogPost.infiniteScroll := true;
                  BlogPost.totalItems := 12 |} in
  let request := λ limit skip,
    {| Api.reqLimit := JS.Num limit; Api.reqSkip := JS.Num skip |} in
  let go := BlogPostRender.run (JS.Num 5) props (BlogPostRender.initial props) in
  let orderly :=
    go [BlogPostRender.Intersecting; BlogPostRender.Render;
        BlogPostRender.Resolved 0 (post <$> seqZ 6 5); BlogPostRender.Render;
        BlogPostRender.Intersecting; BlogPostRender.Render;
        BlogPostRender.Resolved 0 (post <$> seqZ 11 2); BlogPostRender.Render;
        BlogPostRender.Intersecting] in
  let twice :=
    go [BlogPostRender.Intersecting; BlogPostRender.Intersecting;
        BlogPostRender.Resolved 0 (post <$> seqZ 6 5);
        BlogPostRender.Resolved 0 (post <$> seqZ 6 5)] in
  let address := [("style", "infinite"); ("limit", "3"); ("limit", "7")] in
  let fetch := λ fetched : string,
    if decide (fetched = "https://dummyjson.com/posts?limit=5&skip=0")
    then Some blogPosts else None in
  let repeated :=
    BlogPostRender.run (BlogPost.limit address props) props
      (BlogPostRender.initial props)
      [BlogPostRender.Intersecting; BlogPostRender.Render;
       BlogPostRender.Resolved 0 (post <$> seqZ 4 3); BlogPostRender.Render;
       BlogPostRender.Intersecting; BlogPostRender.Render;
       BlogPostRender.Resolved 0 (post <$> seqZ 7 3); BlogPostRender.Render;
       BlogPostRender.Intersecting; BlogPostRender.Render;
       BlogPostRender.Resolved 0 (post <$> seqZ 10 3)] in
  (orderly.2 = [request 5 5; request 5 10]
   ∧ BlogPost.posts (BlogPostRender.state orderly.1) = post <$> seqZ 1 12
   ∧ BlogPost.page (BlogPostRender.state orderly.1) = 3)
  ∧ (Api.paginated 12 (request 5 5) (post <$> seqZ 6 5)
     ∧ twice.2 = [request 5 5; request 5 5]
     ∧ BlogPost.posts (BlogPostRender.state twice.1)
         = post <$> (seqZ 1 10 ++ seqZ 6 5)
     ∧ BlogPost.totalItems props
         < Z.of_nat (length (BlogPost.posts (BlogPostRender.state twice.1))))
  ∧ (Page.PaginationExample fetch (Next.searchParamsOf address)
       = Some (PaginationToggle.infinite, Page.Infinite props)
     ∧ BlogPost.limit address props = JS.Num 3
     ∧ repeated.2 = [request 3 3; request 3 6; request 3 9]
     ∧ Api.paginated 12 (request 3 9) (post <$> seqZ 10 3)
     ∧ BlogPost.totalItems props
         < Z.of_nat (length (BlogPost.posts (BlogPostRender.state repeated.1)))).
Proof.
  intros post blogPosts props request go orderly twice address fetch repeated.
  split_and!; vm_compute; reflexivity.
Qed.

(** C9. When the page renders the infinite view, the posts shown first were
    fetched for the page of the address, yet the loader starts with its page
    counter at 1: whatever the address and the limit, the first fetch the
    loader sends is the request of page 2, with [skip = limit]. *)
Theorem incremental_fetch_restarts_at_page_two
    (fetch : string → option Api.PostResponse)
    (searchParams : gmap string Next.paramValue)
    (style : PaginationToggle.Style) (props : BlogPost.Props) :
  Page.PaginationExample fetch searchParams = Some (style, Page.Infinite props) →
  let '(currentPage, currentLimit) := Page.parseParams searchParams in
  fetch (Api.url (Page.requestOf currentLimit currentPage)) = Some (BlogPost.data props)
  ∧ BlogPost.page (BlogPost.state (BlogPost.initial props)) = 1
  ∧ ∀ (limit : JS.number) (l : BlogPost.Loader) (req : Api.Request),
      BlogPost.handle limit props (BlogPost.initial props) BlogPost.Intersecting
        = (l, Some req) →
      Api.reqLimit req = limit
      ∧ Api.reqSkip req = limit
      ∧ req = Page.requestOf limit (JS.Num 2)
      ∧ BlogPost.nextPage <$> BlogPost.awaiting l = Some 2.
Proof.
  unfold Page.PaginationExample, Page.getBlogPosts.
  destruct (Page.parseParams searchParams) as [currentPage currentLimit].
  destruct (fetch _) as [blogPosts|] eqn:Hfetch; [|done].
  intros [= _ Hview].
  destruct (Page.usePagination searchParams); [done|].
  injection Hview as <-. simpl.
  split_and!; [done | done |].
  intros limit l req. unfold BlogPost.loadMorePosts. simpl.
  destruct (_ <=? _); [done|].
  intros [= <- <-]. simpl.
  assert (BlogPost.skipOf (1 + 1) limit = limit) as Hskip.
  { unfold BlogPost.skipOf. destruct limit as [z|]; simpl; [f_equal; lia | done]. }
  rewrite Hskip. split_and!; try done.
  unfold Page.requestOf, Page.skipOf. f_equal.
  destruct limit as [z|]; simpl; [f_equal; lia | done].
Qed.

Lemma incremental_fetch_restarts_at_page_two_witness :
  let post := {| Api.id := 11; Api.title := "title"; Api.body := "body" |} in
  let blogPosts := {| Api.posts := [post; post]; Api.total := 12;
                      Api.limit := 5; Api.skip := 10 |} in
  let fetch := λ address : string,
    if decide (address = "https://dummyjson.com/posts?limit=5&skip=10")
    then Some blogPosts else None in
  let searchParams :=
    Next.searchParamsOf [("style", "infinite"); ("page", "3"); ("limit", "5")] in
  let props := {| BlogPost.data := blogPosts; BlogPost.infiniteScroll := true;
                  BlogPost.totalItems := 12 |} in
  Page.PaginationExample fetch searchParams
    = Some (PaginationToggle.infinite, Page.Infinite props)
  ∧ Page.parseParams searchParams = (JS.Num 3, JS.Num 5)
  ∧ (BlogPost.handle (JS.Num 5) props (BlogPost.initial props)
       BlogPost.Intersecting).2
    = Some {| Api.reqLimit := JS.Num 5; Api.reqSkip := JS.Num 5 |}.
Proof.
  intros post blogPosts fetch searchParams props.
  assert (Page.PaginationExample fetch searchParams
            = Some (PaginationToggle.infinite, Page.Infinite props)) as Hview
    by reflexivity.
  pose proof (incremental_fetch_restarts_at_page_two
                fetch searchParams PaginationToggle.infinite props Hview) as H.
  assert (Page.parseParams searchParams = (JS.Num 3, JS.Num 5)) as Hparams
    by reflexivity.
  rewrite Hparams in H. destruct H as (_ & _ & Hfirst).
  split_and!; [exact Hview | exact Hparams |].
  destruct (BlogPost.handle (JS.Num 5) props (BlogPost.initial props)
              BlogPost.Intersecting) as [l [req|]] eqn:Hsent; [|discriminate].
  destruct (Hfirst _ _ _ Hsent) as (Hlimit & Hskip & _).
  destruct req as [reqLimit reqSkip]. simpl in *. by subst.
Defined.

(* ===================================================================== *)
(** * Further properties of the components *)
(* ===================================================================== *)

(* --------------------------------------------------------------------- *)
(** ** The page window *)
(* --------------------------------------------------------------------- *)

(** X1. For [totalPages ≥ 1] and [currentPage] between 1 and [totalPages], a
    page number is in the window exactly when it is a page of the collection
    that is the first page, the last page, or at most 2 away from the
    current page. *)
Theorem window_shows_first_last_and_neighbours (totalPages currentPage p : Z) :
  1 ≤ totalPages →
  1 ≤ currentPage ≤ totalPages →
  Pagination.isEllipsis p = false →
  p ∈ Pagination.getPageNumbers currentPage totalPages ↔
    1 ≤ p ≤ totalPages
    ∧ (p = 1 ∨ p = totalPages ∨ currentPage - 2 ≤ p ≤ currentPage + 2).
Proof.
  intros Htotal Hcurrent Hpage. apply Z.ltb_ge in Hpage.
  rewrite elem_of_getPageNumbers. lia.
Qed.

Lemma window_shows_first_last_and_neighbours_witness :
  8 ∈ Pagination.getPageNumbers 6 20 ↔
    1 ≤ 8 ≤ 20 ∧ (8 = 1 ∨ 8 = 20 ∨ 6 - 2 ≤ 8 ≤ 6 + 2).
Proof.
  apply (window_shows_first_last_and_neighbours 20 6 8); [lia | lia | reflexivity].
Defined.

(** X2. Whatever the two pages are, the window has at least one and at most
    nine entries. *)
Theorem window_length_bounds (currentPage totalPages : Z) :
  (1 ≤ length (Pagination.getPageNumbers currentPage totalPages) ≤ 9)%nat.
Proof.
  rewrite getPageNumbers_unfold. rewrite !length_app, length_seqZ.
  destruct (currentPage >? 4), (currentPage <? totalPages - 3),
    (totalPages >? 1); simpl; lia.
Qed.

Lemma filter_eq_absent (x : Z) (l : list Z) :
  x ∉ l → filter (λ y, y = x) l = [].
Proof.
  induction l as [|y l IH]; [done|].
  intros Hx. apply not_elem_of_cons in Hx as [Hne Hx].
  rewrite filter_cons_False by congruence. auto.
Qed.

Lemma filter_eq_NoDup (x : Z) (l : list Z) :
  NoDup l → x ∈ l → filter (λ y, y = x) l = [x].
Proof.
  induction 1 as [|y l Hy Hl IH]; [by intros ?%elem_of_nil|].
  intros Hx. destruct (decide (y = x)) as [->|Hne].
  - rewrite filter_cons_True by done. f_equal. by apply filter_eq_absent.
  - rewrite filter_cons_False by done.
    apply IH. apply elem_of_cons in Hx as [?|?]; [congruence | done].
Qed.

(** X3. For [currentPage] between 1 and [totalPages], exactly one entry of the
    window is highlighted as the current page. *)
Theorem window_highlights_one_entry (totalPages currentPage : Z) :
  1 ≤ totalPages →
  1 ≤ currentPage ≤ totalPages →
  filter (λ page, PaginationView.isCurrent currentPage page = true)
    (Pagination.getPageNumbers currentPage totalPages) = [currentPage].
Proof.
  intros Htotal Hcurrent.
  rewrite <- (filter_eq_NoDup currentPage
                (Pagination.getPageNumbers currentPage totalPages)).
  - apply list_filter_iff. intros page. unfold PaginationView.isCurrent.
    rewrite Z.eqb_eq. split; congruence.
  - apply getPageNumbers_NoDup.
  - apply elem_of_getPageNumbers. lia.
Qed.

Lemma window_highlights_one_entry_witness :
  filter (λ page, PaginationView.isCurrent 5 page = true)
    (Pagination.getPageNumbers 5 10) = [5].
Proof. apply (window_highlights_one_entry 10 5); lia. Defined.

(** X4. For [currentPage] between 1 and [totalPages], the leading ellipsis is
    in the window exactly when page 2 exists and is not shown, and the
    trailing ellipsis exactly when page [totalPages - 1] exists and is not
    shown. *)
Theorem window_ellipsis_marks_hidden_page (totalPages currentPage : Z) :
  1 ≤ totalPages →
  1 ≤ currentPage ≤ totalPages →
  let pages := Pagination.getPageNumbers currentPage totalPages in
  (-1 ∈ pages ↔ 2 ≤ totalPages ∧ 2 ∉ pages)
  ∧ (-2 ∈ pages ↔ 1 ≤ totalPages - 1 ∧ totalPages - 1 ∉ pages).
Proof.
  intros Htotal Hcurrent pages. subst pages.
  rewrite !elem_of_getPageNumbers. lia.
Qed.

Lemma window_ellipsis_marks_hidden_page_witness :
  let pages := Pagination.getPageNumbers 5 10 in
  (-1 ∈ pages ↔ 2 ≤ 10 ∧ 2 ∉ pages)
  ∧ (-2 ∈ pages ↔ 1 ≤ 10 - 1 ∧ 10 - 1 ∉ pages).
Proof. apply (window_ellipsis_marks_hidden_page 10 5); lia. Defined.

(** X5. For [currentPage] between 1 and [totalPages], the window has no
    ellipsis exactly when it is the list of all pages [1 .. totalPages] in
    order. *)
Theorem window_without_ellipsis_lists_all_pages (totalPages currentPage : Z) :
  1 ≤ totalPages →
  1 ≤ currentPage ≤ totalPages →
  let pages := Pagination.getPageNumbers currentPage totalPages in
  (((-1) ∉ pages) ∧ ((-2) ∉ pages)) ↔ pages = seqZ 1 totalPages.
Proof.
  intros Htotal Hcurrent pages. subst pages. split.
  - rewrite !elem_of_getPageNumbers. intros [Hlead Htrail].
    rewrite getPageNumbers_unfold.
    destruct (Z.gtb_spec currentPage 4); [lia|].
    destruct (Z.ltb_spec currentPage (totalPages - 3)); [lia|].
    replace (Z.max 2 (currentPage - 2)) with 2 by lia.
    replace (Z.min (totalPages - 1) (currentPage + 2)) with (totalPages - 1) by lia.
    destruct (Z.gtb_spec totalPages 1) as [Hmany|Hone]; simpl.
    + assert (seqZ 1 totalPages = 1 :: seqZ 2 (totalPages - 2) ++ [totalPages])
        as ->.
      { rewrite (seqZ_cons 1 totalPages) by lia. f_equal.
        replace (Z.pred totalPages) with ((totalPages - 2) + 1) by lia.
        rewrite seqZ_app by lia. f_equal.
        rewrite seqZ_cons, seqZ_nil by lia. f_equal. lia. }
      by replace (totalPages - 1 - 2 + 1) with (totalPages - 2) by lia.
    + assert (totalPages = 1) as -> by lia.
      rewrite seqZ_nil by lia. reflexivity.
  - intros ->. rewrite !elem_of_seqZ. lia.
Qed.

Lemma window_without_ellipsis_lists_all_pages_witness :
  let pages := Pagination.getPageNumbers 4 7 in
  (((-1) ∉ pages) ∧ ((-2) ∉ pages)) ↔ pages = seqZ 1 7.
Proof. apply (window_without_ellipsis_lists_all_pages 7 4); lia. Defined.

Lemma filter_Forall_id {A} (P : A → Prop) `{∀ x, Decision (P x)} (l : list A) :
  Forall P l → filter P l = l.
Proof.
  induction 1 as [|x l Hx Hl IH]; [done|].
  by rewrite filter_cons_True, IH.
Qed.

Lemma StronglySorted_seqZ (m n : Z) : StronglySorted Z.lt (seqZ m n).
Proof.
  remember (Z.to_nat n) as k eqn:Hk. revert m n Hk.
  induction k as [|k IH]; intros m n Hk.
  - rewrite seqZ_nil by lia. constructor.
  - rewrite seqZ_cons by lia. constructor.
    + apply IH. lia.
    + apply Forall_seqZ. lia.
Qed.

(** The page buttons of the window, in the order of the window. *)
Lemma window_page_buttons (currentPage totalPages : Z) :
  filter (λ page, Pagination.isEllipsis page = false)
    (Pagination.getPageNumbers currentPage totalPages) =
  [1] ++ seqZ (Z.max 2 (currentPage - 2))
              (Z.min (totalPages - 1) (currentPage + 2)
               - Z.max 2 (currentPage - 2) + 1)
      ++ (if totalPages >? 1 then [totalPages] else []).
Proof.
  rewrite getPageNumbers_unfold, !filter_app.
  assert (filter (λ page, Pagination.isEllipsis page = false)
            (if currentPage >? 4 then [-1] else []) = []) as ->
    by (by destruct (currentPage >? 4)).
  assert (filter (λ page, Pagination.isEllipsis page = false)
            (if currentPage <? totalPages - 3 then [-2] else []) = []) as ->
    by (by destruct (currentPage <? totalPages - 3)).
  rewrite (filter_Forall_id _ (seqZ _ _)).
  2:{ apply Forall_seqZ. intros page Hpage. apply Z.ltb_ge. lia. }
  rewrite (filter_Forall_id _ (if totalPages >? 1 then [totalPages] else [])).
  2:{ destruct (Z.gtb_spec totalPages 1); [|done].
      apply Forall_singleton, Z.ltb_ge. lia. }
  done.
Qed.

(** X6. Whatever the two pages are, the page buttons of the window stand in
    strictly increasing order. *)
Theorem window_page_buttons_increase (currentPage totalPages : Z) :
  StronglySorted Z.lt
    (filter (λ page, Pagination.isEllipsis page = false)
       (Pagination.getPageNumbers currentPage totalPages)).
Proof.
  rewrite window_page_buttons.
  apply StronglySorted_app_2; [| repeat constructor |].
  - intros x1 x2 ->%list_elem_of_singleton.
    rewrite elem_of_app, elem_of_seqZ.
    destruct (Z.gtb_spec totalPages 1);
      rewrite ?list_elem_of_singleton, ?elem_of_nil; lia.
  - apply StronglySorted_app_2; [| apply StronglySorted_seqZ |].
    + intros x1 x2. rewrite elem_of_seqZ.
      destruct (Z.gtb_spec totalPages 1);
        rewrite ?list_elem_of_singleton, ?elem_of_nil; lia.
    + destruct (totalPages >? 1); repeat constructor.
Qed.

(* --------------------------------------------------------------------- *)
(** ** Numbers written and read back *)
(* --------------------------------------------------------------------- *)

Lemma digitsPrefix_of_uint_acc (d : Decimal.uint) (acc : positive) :
  JS.digitsPrefix (NilEmpty.string_of_uint d) (Some (Z.pos acc)) =
    Some (Z.pos (Pos.of_uint_acc d acc)).
Proof.
  revert acc. induction d; intros acc; simpl; [done|..];
    rewrite <- IHd;
    match goal with
    | |- context [Z.of_nat (nat_of_ascii ?c)] =>
        let v := eval vm_compute in (Z.of_nat (nat_of_ascii c)) in
        change (Z.of_nat (nat_of_ascii c)) with v
    end;
    do 2 f_equal; lia.
Qed.

Lemma digitsPrefix_of_uint (d : Decimal.uint) (acc : option Z) :
  default 0 acc = 0 →
  d ≠ Decimal.Nil →
  JS.digitsPrefix (NilEmpty.string_of_uint d) acc =
    Some (Z.of_N (Pos.of_uint d)).
Proof.
  revert acc. induction d; intros acc Hacc Hd; [done|..]; simpl; rewrite Hacc;
    simpl; try apply digitsPrefix_of_uint_acc.
  assert (d = Decimal.Nil ∨ d ≠ Decimal.Nil) as [->|Hne]
    by (destruct d; auto; right; discriminate).
  - done.
  - by apply IHd.
Qed.

(** A decimal numeral starts with a character that is neither white space
    nor a sign. *)
Lemma string_of_uint_head (d : Decimal.uint) :
  d ≠ Decimal.Nil →
  ∃ c rest, NilEmpty.string_of_uint d = String c rest
            ∧ JS.isWhiteSpace c = false
            ∧ Ascii.eqb c "-" = false ∧ Ascii.eqb c "+" = false.
Proof. destruct d; [done|..]; intros _; simpl; eauto 10. Qed.

Lemma parseInt_numeral (d : Decimal.uint) :
  d ≠ Decimal.Nil →
  JS.parseInt (NilEmpty.string_of_uint d) = JS.Num (Z.of_N (Pos.of_uint d))
  ∧ JS.parseInt (String "-" (NilEmpty.string_of_uint d)) =
      JS.Num (- Z.of_N (Pos.of_uint d)).
Proof.
  intros Hd. destruct (string_of_uint_head d Hd) as (c & rest & Hs & Hws & Hm & Hp).
  pose proof (digitsPrefix_of_uint d None eq_refl Hd) as Hdigits.
  unfold JS.parseInt. split.
  - rewrite Hs in *. simpl JS.trimStart. rewrite Hws, Hm, Hp, Hdigits.
    f_equal. lia.
  - change (JS.trimStart (String "-" (NilEmpty.string_of_uint d)))
      with (String "-" (NilEmpty.string_of_uint d)).
    cbv beta iota zeta. change (Ascii.eqb "-" "-") with true.
    cbv beta iota. by rewrite Hdigits.
Qed.

(** In the model, reading back what [toString] wrote gives the integer. The
    model's [toString] and [parseInt] are those of the program for integers
    of magnitude at most [2^53]: beyond, the program rounds to a double and,
    from [10^21] on, writes an exponent. *)
Lemma parseInt_of_toString (z : Z) :
  JS.parseInt (JS.toString (JS.Num z)) = JS.Num z.
Proof.
  destruct z as [|p|p]; [reflexivity|..]; simpl.
  - unfold NilZero.string_of_uint.
    pose proof (Unsigned.to_uint_nonnil p) as Hp.
    destruct (parseInt_numeral (Pos.to_uint p) Hp) as [Hpos _].
    rewrite Unsigned.of_to in Hpos.
    by destruct (Pos.to_uint p).
  - unfold NilZero.string_of_uint.
    pose proof (Unsigned.to_uint_nonnil p) as Hp.
    destruct (parseInt_numeral (Pos.to_uint p) Hp) as [_ Hneg].
    rewrite Unsigned.of_to in Hneg.
    by destruct (Pos.to_uint p).
Qed.

Lemma toString_inj (x y : Z) :
  JS.toString (JS.Num x) = JS.toString (JS.Num y) → x = y.
Proof.
  intros Heq. pose proof (parseInt_of_toString x) as Hx.
  rewrite Heq, parseInt_of_toString in Hx. congruence.
Qed.

(** A numeral is not empty and does not start like the key of a page. *)
Lemma toString_head (z : Z) :
  ∃ c rest, JS.toString (JS.Num z) = String c rest.
Proof.
  destruct z as [|p|p]; simpl; eauto.
  unfold NilZero.string_of_uint.
  destruct (string_of_uint_head (Pos.to_uint p) (Unsigned.to_uint_nonnil p))
    as (c & rest & Hs & _).
  rewrite Hs. destruct (Pos.to_uint p); eauto.
Qed.

(** X8. Whatever the two pages are, the React keys of the entries of the
    window are pairwise distinct. *)
Theorem window_keys_distinct (currentPage totalPages : Z) (i j : nat) (p q : Z) :
  Pagination.getPageNumbers currentPage totalPages !! i = Some p →
  Pagination.getPageNumbers currentPage totalPages !! j = Some q →
  PaginationView.tokenKey i p = PaginationView.tokenKey j q →
  i = j.
Proof.
  intros Hi Hj. unfold PaginationView.tokenKey.
  destruct (p <? 0), (q <? 0); simpl.
  - intros [= Hkey]. apply toString_inj in Hkey. lia.
  - discriminate.
  - discriminate.
  - intros [= Hkey]. apply toString_inj in Hkey. subst q.
    exact (proj1 (NoDup_alt _) (getPageNumbers_NoDup currentPage totalPages)
             i j p Hi Hj).
Qed.

Lemma window_keys_distinct_witness :
  PaginationView.tokenKey 1 (-1) = "ellipsis-1"
  ∧ PaginationView.tokenKey 7 (-2) = "ellipsis-7"
  ∧ (PaginationView.tokenKey 1 (-1) = PaginationView.tokenKey 1 (-1) → 1%nat = 1%nat).
Proof.
  split_and!; [reflexivity | reflexivity |].
  apply (window_keys_distinct 5 10 1 1 (-1) (-1)); reflexivity.
Defined.

(* --------------------------------------------------------------------- *)
(** ** Page counts and navigation *)
(* --------------------------------------------------------------------- *)

Lemma navigateToPage_below (totalPages limit page : Z) (r : Router.t) :
  page < 1 → Pagination.navigateToPage totalPages limit page r = r.
Proof.
  intros Hpage. unfold Pagination.navigateToPage.
  by destruct (Z.ltb_spec page 1); [|lia].
Qed.

Lemma navigateToPage_above (totalPages limit page : Z) (r : Router.t) :
  totalPages < page → Pagination.navigateToPage totalPages limit page r = r.
Proof.
  intros Hpage. unfold Pagination.navigateToPage.
  destruct (Z.gtb_spec page totalPages); [|lia]. by rewrite orb_true_r.
Qed.

Lemma totalPages_bounds (totalItems limit : Z) :
  0 < limit →
  (Pagination.totalPages totalItems limit - 1) * limit < totalItems
  ∧ totalItems ≤ Pagination.totalPages totalItems limit * limit.
Proof.
  intros Hlimit. unfold Pagination.totalPages.
  pose proof (Z.div_mod (- totalItems) limit) as Hdiv.
  pose proof (Z.mod_pos_bound (- totalItems) limit Hlimit) as Hmod.
  nia.
Qed.

(** X9. For a positive limit, [totalPages] is the least number of pages of
    [limit] items that hold [totalItems] items: one page fewer is too few,
    and no smaller count is enough. *)
Theorem totalPages_is_ceiling (totalItems limit : Z) :
  0 < limit →
  (Pagination.totalPages totalItems limit - 1) * limit < totalItems
  ∧ totalItems ≤ Pagination.totalPages totalItems limit * limit
  ∧ ∀ n, totalItems ≤ n * limit → Pagination.totalPages totalItems limit ≤ n.
Proof.
  intros Hlimit.
  destruct (totalPages_bounds totalItems limit Hlimit) as [Hlow Hhigh].
  split_and!; [done | done |].
  intros n Hn. nia.
Qed.

Lemma totalPages_is_ceiling_witness :
  (Pagination.totalPages 12 5 - 1) * 5 < 12
  ∧ 12 ≤ Pagination.totalPages 12 5 * 5
  ∧ ∀ n, 12 ≤ n * 5 → Pagination.totalPages 12 5 ≤ n.
Proof. apply (totalPages_is_ceiling 12 5); lia. Defined.

(** X10. On a page between 1 and [totalPages], with a positive limit, the
    results line shows the range that starts right after the skipped items,
    is not empty, ends within [totalItems], and counts exactly the items a
    paginated source holds for that page. *)
Theorem results_line_matches_page (totalItems limit currentPage : Z) :
  0 < limit →
  1 ≤ currentPage ≤ Pagination.totalPages totalItems limit →
  let first := PaginationView.showingFrom totalItems limit currentPage in
  let last := PaginationView.showingTo totalItems limit currentPage in
  first = (currentPage - 1) * limit + 1
  ∧ first ≤ last ≤ totalItems
  ∧ last - first + 1 = Api.pageSize totalItems limit ((currentPage - 1) * limit).
Proof.
  intros Hlimit Hcurrent first last. subst first last.
  destruct (totalPages_bounds totalItems limit Hlimit) as [Hlow _].
  assert ((currentPage - 1) * limit
            ≤ (Pagination.totalPages totalItems limit - 1) * limit)
    by (apply Z.mul_le_mono_nonneg_r; lia).
  unfold PaginationView.showingFrom, PaginationView.showingTo, Api.pageSize.
  lia.
Qed.

Lemma results_line_matches_page_witness :
  let first := PaginationView.showingFrom 12 5 3 in
  let last := PaginationView.showingTo 12 5 3 in
  first = (3 - 1) * 5 + 1
  ∧ first ≤ last ≤ 12
  ∧ last - first + 1 = Api.pageSize 12 5 ((3 - 1) * 5).
Proof. apply (results_line_matches_page 12 5 3); [lia | vm_compute; split; discriminate]. Defined.

(** X11. For [currentPage] between 1 and [totalPages], a click on an entry
    of the window does nothing on an ellipsis and, on every page button,
    pushes one navigation whose address has that page as its only [page]
    value: no button of the window is refused by [navigateToPage]. *)
Theorem window_buttons_navigate (totalPages limit currentPage page : Z) (r : Router.t) :
  1 ≤ totalPages →
  1 ≤ currentPage ≤ totalPages →
  page ∈ Pagination.getPageNumbers currentPage totalPages →
  let r' := PaginationView.onToken totalPages limit page r in
  if Pagination.isEllipsis page then r' = r
  else Router.pushed r' = Router.pushed r ++ [Router.address r']
       ∧ URLSearchParams.getAll "page" (Router.address r')
           = [JS.toString (JS.Num page)].
Proof.
  intros Htotal Hcurrent Hpage r'. subst r'.
  unfold PaginationView.onToken, Pagination.isEllipsis.
  destruct (Z.ltb_spec page 0) as [Hneg|Hpos]; [done|].
  apply elem_of_getPageNumbers in Hpage.
  destruct (navigate_in_range totalPages limit page r) as (Hpush & Hget & _);
    [lia | done].
Qed.

Lemma window_buttons_navigate_witness :
  let r := {| Router.address := [("page", "5"); ("page", "6")]; Router.pushed := [] |} in
  let r' := PaginationView.onToken 10 5 7 r in
  Router.pushed r' = Router.pushed r ++ [Router.address r']
  ∧ URLSearchParams.getAll "page" (Router.address r') = [JS.toString (JS.Num 7)].
Proof.
  intros r.
  apply (window_buttons_navigate 10 5 5 7 r); [lia | lia |].
  apply list_elem_of_In. vm_compute. tauto.
Defined.

(** X12. For [currentPage] between 1 and [totalPages]: the handler of a
    disabled Previous or Next button does nothing, and an enabled one pushes
    a navigation to the page before, respectively after, the current one. *)
Theorem previous_next_buttons (totalPages limit currentPage : Z) (r : Router.t) :
  1 ≤ currentPage ≤ totalPages →
  let back := PaginationView.onPrevious totalPages limit currentPage r in
  let forth := PaginationView.onNext totalPages limit currentPage r in
  (if PaginationView.previousDisabled currentPage then back = r
   else Router.pushed back = Router.pushed r ++ [Router.address back]
        ∧ URLSearchParams.getAll "page" (Router.address back)
            = [JS.toString (JS.Num (currentPage - 1))])
  ∧ (if PaginationView.nextDisabled currentPage totalPages then forth = r
     else Router.pushed forth = Router.pushed r ++ [Router.address forth]
          ∧ URLSearchParams.getAll "page" (Router.address forth)
              = [JS.toString (JS.Num (currentPage + 1))]).
Proof.
  intros Hcurrent back forth. subst back forth.
  unfold PaginationView.previousDisabled, PaginationView.nextDisabled,
    PaginationView.onPrevious, PaginationView.onNext.
  split.
  - destruct (Z.eqb_spec currentPage 1) as [->|Hne].
    + apply navigateToPage_below. lia.
    + destruct (navigate_in_range totalPages limit (currentPage - 1) r)
        as (Hpush & Hget & _); [lia | done].
  - rewrite Z.geb_leb.
    destruct (Z.leb_spec totalPages currentPage) as [Hlast|Hmore].
    + apply navigateToPage_above. lia.
    + destruct (navigate_in_range totalPages limit (currentPage + 1) r)
        as (Hpush & Hget & _); [lia | done].
Qed.

Lemma previous_next_buttons_witness :
  let r := {| Router.address := [("page", "1")]; Router.pushed := [] |} in
  PaginationView.onPrevious 3 5 1 r = r
  ∧ Router.address (PaginationView.onNext 3 5 1 r) = [("page", "2"); ("limit", "5")].
Proof.
  intros r.
  destruct (previous_next_buttons 3 5 1 r) as [Hback Hforth]; [lia|].
  split; [exact Hback | reflexivity].
Defined.

(** X13. When the page of the address lies more than one page beyond
    [totalPages], the Previous button is enabled and the Next button is
    disabled, yet Previous does nothing: its target is still out of range. *)
Theorem previous_refused_beyond_last_page (totalPages limit currentPage : Z)
    (r : Router.t) :
  1 ≤ totalPages →
  totalPages + 1 < currentPage →
  PaginationView.previousDisabled currentPage = false
  ∧ PaginationView.nextDisabled currentPage totalPages = true
  ∧ PaginationView.onPrevious totalPages limit currentPage r = r.
Proof.
  intros Htotal Hbeyond.
  unfold PaginationView.previousDisabled, PaginationView.nextDisabled,
    PaginationView.onPrevious.
  split_and!.
  - apply Z.eqb_neq. lia.
  - rewrite Z.geb_leb. apply Z.leb_le. lia.
  - apply navigateToPage_above. lia.
Qed.

Lemma previous_refused_beyond_last_page_witness :
  let r := {| Router.address := [("page", "9")]; Router.pushed := [] |} in
  PaginationView.previousDisabled 9 = false
  ∧ PaginationView.nextDisabled 9 3 = true
  ∧ PaginationView.onPrevious 3 5 9 r = r.
Proof. intros r. apply (previous_refused_beyond_last_page 3 5 9 r); lia. Defined.

Lemma getAll_createQueryString (searchParams : list (string * string))
    (limit : Z) (value name : string) :
  URLSearchParams.getAll name
    (Pagination.createQueryString searchParams limit "page" value) =
  if decide (name = "limit") then [JS.toString (JS.Num limit)]
  else if decide (name = "page") then [value]
  else URLSearchParams.getAll name searchParams.
Proof.
  unfold Pagination.createQueryString. rewrite decide_True by done.
  destruct (decide (name = "limit")) as [->|Hlimit].
  - apply getAll_set_eq.
  - rewrite getAll_set_ne by done.
    destruct (decide (name = "page")) as [->|Hpage].
    + apply getAll_set_eq.
    + by apply getAll_set_ne.
Qed.

(** X14. A navigation to a page between 1 and [totalPages], with the page
    and the limit of the controls safe integers (at most [2^53] in magnitude,
    where [toString] writes plain decimal digits and [parseInt] reads them
    exactly), is read back by the page component as that very page and
    limit, whatever [page] and [limit] values (repeated or not numeric) the
    address had before; the loader reads the same limit, every other
    parameter keeps its values, and the display mode is unchanged. *)
Theorem navigation_is_read_back (totalPages limit page : Z) (r : Router.t) :
  1 ≤ page ≤ totalPages →
  page ≤ 2 ^ 53 →
  Z.abs limit ≤ 2 ^ 53 →
  let r' := Pagination.navigateToPage totalPages limit page r in
  Page.parseParams (Next.searchParamsOf (Router.address r'))
    = (JS.Num page, JS.Num limit)
  ∧ (∀ props, BlogPost.limit (Router.address r') props = JS.Num limit)
  ∧ (∀ name, name ≠ "page" → name ≠ "limit" →
       URLSearchParams.getAll name (Router.address r')
         = URLSearchParams.getAll name (Router.address r))
  ∧ Page.displayMode r' = Page.displayMode r.
Proof.
  intros Hpage _ _ r'. subst r'. unfold Pagination.navigateToPage.
  destruct (Z.ltb_spec page 1), (Z.gtb_spec page totalPages); try lia. simpl.
  split_and!.
  - rewrite parseParams_lookup, !lookup_searchParamsOf, !getAll_createQueryString.
    repeat case_decide; try done. lazy beta iota.
    f_equal; apply parseInt_of_toString.
  - intros props. unfold BlogPost.limit, URLSearchParams.get.
    rewrite getAll_createQueryString.
    rewrite (decide_True (P := "limit" = "limit")) by done. cbn [head].
    destruct (toString_head limit) as (c & rest & Hs).
    rewrite decide_False by (rewrite Hs; done).
    apply parseInt_of_toString.
  - intros name Hname1 Hname2. rewrite getAll_createQueryString.
    by rewrite !decide_False.
  - rewrite !displayMode_address. cbn [Router.address Router.push].
    rewrite getAll_createQueryString. by repeat case_decide.
Qed.

Lemma navigation_is_read_back_witness :
  let r := {| Router.address := [("page", "x"); ("limit", "3"); ("limit", "7")];
              Router.pushed := [] |} in
  Page.parseParams (Next.searchParamsOf (Router.address r)) = (JS.NaN, JS.Num 5)
  ∧ Page.parseParams
      (Next.searchParamsOf (Router.address (Pagination.navigateToPage 4 3 2 r)))
    = (JS.Num 2, JS.Num 3).
Proof.
  intros r. split; [reflexivity|].
  apply (navigation_is_read_back 4 3 2 r); [lia | vm_compute; discriminate | vm_compute; discriminate].
Defined.

(* --------------------------------------------------------------------- *)
(** ** The style toggle and the mode of an address *)
(* --------------------------------------------------------------------- *)

Lemma delete_set (name value : string) (params : list (string * string)) :
  URLSearchParams.delete name (URLSearchParams.set name value params) =
    URLSearchParams.delete name params.
Proof.
  unfold URLSearchParams.delete.
  induction params as [|p params IH]; simpl.
  - rewrite filter_cons_False by (simpl; intros Hne; by apply Hne). done.
  - destruct (decide (p.1 = name)) as [Heq|Hne].
    + rewrite filter_cons_False by (simpl; intros Hne; by apply Hne).
      rewrite (filter_cons_False _ p) by (intros Hne; by apply Hne).
      apply list_filter_filter_l. done.
    + by rewrite !filter_cons_True, IH.
Qed.

Lemma set_absent (name value : string) (params : list (string * string)) :
  URLSearchParams.getAll name params = [] →
  URLSearchParams.set name value params = params ++ [(name, value)].
Proof.
  induction params as [|p params IH]; [done|].
  rewrite getAll_cons. simpl.
  destruct (decide (p.1 = name)); [done|]. simpl. intros Hnone.
  by rewrite IH.
Qed.

Lemma delete_absent (name : string) (params : list (string * string)) :
  URLSearchParams.getAll name params = [] →
  URLSearchParams.delete name params = params.
Proof.
  unfold URLSearchParams.delete.
  induction params as [|p params IH]; [done|].
  rewrite getAll_cons.
  destruct (decide (p.1 = name)); [done|]. simpl. intros Hnone.
  by rewrite filter_cons_True, IH.
Qed.

(** X15. Two clicks on the toggle leave every parameter other than [style]
    where it was; of [style] they keep nothing in paged mode and a single
    [style=infinite], moved to the end, in infinite mode. In particular an
    address without [style] comes back exactly. *)
Theorem toggle_twice_normalises_address (r : Router.t) :
  Router.address (Page.clickToggle (Page.clickToggle r)) =
    URLSearchParams.delete "style" (Router.address r)
    ++ match Page.displayMode r with
       | PaginationToggle.infinite => [("style", "infinite")]
       | PaginationToggle.pagination => []
       end
  ∧ (URLSearchParams.getAll "style" (Router.address r) = [] →
     Router.address (Page.clickToggle (Page.clickToggle r)) = Router.address r).
Proof.
  assert (Router.address (Page.clickToggle (Page.clickToggle r)) =
            URLSearchParams.delete "style" (Router.address r)
            ++ match Page.displayMode r with
               | PaginationToggle.infinite => [("style", "infinite")]
               | PaginationToggle.pagination => []
               end) as Hnormal.
  { unfold Page.clickToggle at 1. fold (Page.displayMode (Page.clickToggle r)).
    rewrite (displayMode_address (Page.clickToggle r)).
    unfold Page.clickToggle. fold (Page.displayMode r).
    destruct (Page.displayMode r); simpl.
    - rewrite getAll_set_eq, decide_True by done. simpl.
      by rewrite delete_set, app_nil_r.
    - rewrite getAll_delete_eq, decide_False by done. simpl.
      apply set_absent, getAll_delete_eq. }
  split; [exact Hnormal|].
  intros Hnone. rewrite Hnormal, displayMode_address, Hnone.
  rewrite decide_False by done.
  by rewrite app_nil_r, delete_absent.
Qed.

Lemma usePagination_address (query : list (string * string)) :
  Page.usePagination (Next.searchParamsOf query) =
    bool_decide (URLSearchParams.getAll "style" query ≠ ["infinite"]).
Proof.
  pose proof (displayMode_address {| Router.address := query; Router.pushed := [] |})
    as Hmode.
  unfold Page.displayMode, Page.currentStyle in Hmode. simpl in Hmode.
  destruct (Page.usePagination _);
    destruct (decide (URLSearchParams.getAll "style" query = ["infinite"]));
    try done.
  - by rewrite bool_decide_eq_true_2.
  - rewrite bool_decide_eq_false_2; [done|]. intros Hne. by apply Hne.
Qed.

(** X16. When the fetch succeeds, the page renders the infinite view exactly
    for an address whose [style] occurs once with the value [infinite]; any
    other address, also one that repeats [style=infinite], gets the paged
    view, and the toggle is rendered with the matching style. *)
Theorem rendered_view_follows_style (fetch : string → option Api.PostResponse)
    (query : list (string * string))
    (style : PaginationToggle.Style) (view : Page.Rendered) :
  Page.PaginationExample fetch (Next.searchParamsOf query) = Some (style, view) →
  match view with
  | Page.Infinite props =>
      URLSearchParams.getAll "style" query = ["infinite"]
      ∧ style = PaginationToggle.infinite
      ∧ BlogPost.infiniteScroll props = true
      ∧ BlogPost.totalItems props = Api.total (BlogPost.data props)
  | Page.Paged props totalItems limit currentPage =>
      URLSearchParams.getAll "style" query ≠ ["infinite"]
      ∧ style = PaginationToggle.pagination
      ∧ BlogPost.infiniteScroll props = false
      ∧ totalItems = Api.total (BlogPost.data props)
      ∧ (currentPage, limit) = Page.parseParams (Next.searchParamsOf query)
  end.
Proof.
  unfold Page.PaginationExample, Page.currentStyle.
  rewrite usePagination_address.
  destruct (Page.parseParams _) as [currentPage currentLimit].
  destruct (Page.getBlogPosts _ _ _) as [blogPosts|]; [|done].
  case_bool_decide as Hstyle; by intros [= <- <-].
Qed.

Lemma rendered_view_follows_style_witness :
  let blogPosts := {| Api.posts := []; Api.total := 12; Api.limit := 5; Api.skip := 0 |} in
  let fetch := λ _ : string, Some blogPosts in
  let query := [("style", "infinite"); ("style", "infinite")] in
  let props := {| BlogPost.data := blogPosts; BlogPost.infiniteScroll := false;
                  BlogPost.totalItems := 0 |} in
  Page.PaginationExample fetch (Next.searchParamsOf query)
    = Some (PaginationToggle.pagination, Page.Paged props 12 (JS.Num 5) (JS.Num 1))
  ∧ URLSearchParams.getAll "style" query ≠ ["infinite"].
Proof.
  intros blogPosts fetch query props.
  assert (Page.PaginationExample fetch (Next.searchParamsOf query)
            = Some (PaginationToggle.pagination,
                    Page.Paged props 12 (JS.Num 5) (JS.Num 1))) as Hview
    by (vm_compute; reflexivity).
  split; [exact Hview|].
  exact (proj1 (rendered_view_follows_style fetch query _ _ Hview)).
Defined.

Lemma toggle_twice_normalises_address_witness :
  let r := {| Router.address := [("page", "2"); ("limit", "5")]; Router.pushed := [] |} in
  Router.address (Page.clickToggle (Page.clickToggle r)) = Router.address r.
Proof.
  intros r.
  destruct (toggle_twice_normalises_address r) as [_ Hback].
  apply Hback. reflexivity.
Defined.

(* --------------------------------------------------------------------- *)
(** ** More on the infinite loader *)
(* --------------------------------------------------------------------- *)

(** In every loader that is reached, whatever the source answers and
    whatever the limit is: the page counter is at least 1, the loading flag
    is set exactly while a call is suspended, and the suspended call holds
    the request of the page after the counter. *)
Lemma reachable_awaiting (answers : Api.Request → list Api.Post → Prop)
    (limit : JS.number) (props : BlogPost.Props) (l : BlogPost.Loader) :
  BlogPost.reachable answers limit props l →
  let st := BlogPost.state l in
  1 ≤ BlogPost.page st
  ∧ (BlogPost.isLoading st = true ↔ is_Some (BlogPost.awaiting l))
  ∧ ∀ p, BlogPost.awaiting l = Some p →
         BlogPost.nextPage p = BlogPost.page st + 1
         ∧ BlogPost.request p =
             {| Api.reqLimit := limit;
                Api.reqSkip := BlogPost.skipOf (BlogPost.page st + 1) limit |}.
Proof.
  induction 1 as [|l Hreach IH|l p newPosts Hreach IH Hp Hanswer|l Hreach IH];
    simpl in *.
  - split_and!; [lia | | done]. split; [done | by intros [? ?]].
  - destruct (BlogPost.infiniteScroll props); [|exact IH].
    unfold BlogPost.loadMorePosts.
    destruct (_ || _); [exact IH|]. simpl.
    destruct IH as (Hpage & _ & _).
    split_and!; [done | | by intros p [= <-]].
    split; [by eauto | done].
  - destruct IH as (Hpage & Hflag & Hawait).
    destruct (Hawait p Hp) as [Hnext Hreq].
    unfold BlogPost.settle. rewrite Hp. simpl.
    split_and!; [lia | | done]. split; [done | by intros [? ?]].
  - destruct IH as (Hpage & Hflag & Hawait).
    unfold BlogPost.settle.
    destruct (BlogPost.awaiting l) as [p|] eqn:Hp; simpl.
    + split_and!; [done | | done]. split; [done | by intros [? ?]].
    + rewrite Hp. by split_and!.
Qed.



Lemma run_exhausted (limit : JS.number) (props : BlogPost.Props)
    (l : BlogPost.Loader) (events : list BlogPost.Event) :
  BlogPost.awaiting l = None →
  BlogPost.totalItems props
    ≤ Z.of_nat (length (BlogPost.posts (BlogPost.state l))) →
  BlogPost.run limit props l events = (l, []).
Proof.
  intros Hidle Hfull. induction events as [|e events IH]; [done|].
  cbn [BlogPost.run].
  assert (BlogPost.handle limit props l e = (l, None)) as ->.
  { destruct e; simpl.
    - rewrite loadMorePosts_stopped by (by right).
      by destruct (BlogPost.infiniteScroll props).
    - unfold BlogPost.settle. by rewrite Hidle.
    - unfold BlogPost.settle. by rewrite Hidle. }
  by rewrite IH.
Qed.



(** X20. The [BlogPost] of the paged view never loads: [loadMorePosts]
    itself is stopped by its guard, since [totalItems] is left at 0, and no
    sequence of events sends a fetch or changes the posts rendered. *)
Theorem paged_view_never_fetches (fetch : string → option Api.PostResponse)
    (searchParams : gmap string Next.paramValue)
    (style : PaginationToggle.Style) (props : BlogPost.Props)
    (totalItems : Z) (limit currentPage : JS.number) :
  Page.PaginationExample fetch searchParams
    = Some (style, Page.Paged props totalItems limit currentPage) →
  ∀ (lim : JS.number) (events : list BlogPost.Event),
    BlogPost.loadMorePosts lim props (BlogPost.initial props)
      = (BlogPost.initial props, None)
    ∧ BlogPost.run lim props (BlogPost.initial props) events
      = (BlogPost.initial props, []).
Proof.
  unfold Page.PaginationExample.
  destruct (Page.parseParams searchParams) as [page0 limit0].
  destruct (Page.getBlogPosts _ _ _) as [blogPosts|]; [|done].
  destruct (Page.usePagination searchParams); [|done].
  intros [= _ <- _ _ _] lim events.
  split.
  - apply loadMorePosts_stopped. right. simpl. lia.
  - apply run_exhausted; [done | simpl; lia].
Qed.

Lemma paged_view_never_fetches_witness :
  let blogPosts := {| Api.posts := []; Api.total := 12; Api.limit := 5; Api.skip := 0 |} in
  let fetch := λ _ : string, Some blogPosts in
  let props := {| BlogPost.data := blogPosts; BlogPost.infiniteScroll := false;
                  BlogPost.totalItems := 0 |} in
  BlogPost.run (JS.Num 5) props (BlogPost.initial props)
    [BlogPost.Intersecting; BlogPost.Intersecting]
  = (BlogPost.initial props, []).
Proof.
  intros blogPosts fetch props.
  assert (Page.PaginationExample fetch (Next.searchParamsOf [("page", "1")])
            = Some (PaginationToggle.pagination,
                    Page.Paged props 12 (JS.Num 5) (JS.Num 1))) as Hview
    by (vm_compute; reflexivity).
  exact (proj2 (paged_view_never_fetches fetch _ _ props 12 (JS.Num 5) (JS.Num 1)
                  Hview (JS.Num 5) [BlogPost.Intersecting; BlogPost.Intersecting])).
Defined.

(** Against a source that serves a fixed collection, with a positive
    integer limit, a loader that is reached holds the posts given first and
    then the items of the pages 2 to [page], as far as the collection goes. *)
Lemma reachable_posts (collection : list Api.Post) (L : Z)
    (props : BlogPost.Props) (l : BlogPost.Loader) :
  0 < L →
  BlogPost.reachable (Source.served collection) (JS.Num L) props l →
  BlogPost.posts (BlogPost.state l) =
    Api.posts (BlogPost.data props)
    ++ take (Z.to_nat ((BlogPost.page (BlogPost.state l) - 1) * L))
         (drop (Z.to_nat L) collection).
Proof.
  intros HL Hreach.
  induction Hreach as [|l Hreach IH|l p newPosts Hreach IH Hp Hanswer|l Hreach IH];
    simpl.
  - replace ((1 - 1) * L) with 0 by lia. by rewrite app_nil_r.
  - destruct (BlogPost.infiniteScroll props); [|exact IH].
    unfold BlogPost.loadMorePosts. by destruct (_ || _).
  - destruct (reachable_awaiting _ _ _ _ Hreach) as (Hpage & _ & Hawait).
    destruct (Hawait p Hp) as [Hnext Hreq].
    unfold BlogPost.settle. rewrite Hp. simpl.
    rewrite Hreq in Hanswer. unfold Source.served in Hanswer. simpl in Hanswer.
    rewrite IH, Hanswer, Hnext, <- app_assoc. f_equal.
    assert (0 ≤ (BlogPost.page (BlogPost.state l) - 1) * L) by nia.
    replace (Z.to_nat ((BlogPost.page (BlogPost.state l) + 1) * L - L))
      with (Z.to_nat L + Z.to_nat ((BlogPost.page (BlogPost.state l) - 1) * L))%nat
      by lia.
    rewrite <- drop_drop, take_take_drop. f_equal. lia.
  - unfold BlogPost.settle.
    by destruct (BlogPost.awaiting l).
Qed.

(** The same when the posts given first are the first page: the loader holds
    the first [page * L] items of the collection. *)
Lemma reachable_posts_prefix (collection : list Api.Post) (L : Z)
    (props : BlogPost.Props) (l : BlogPost.Loader) :
  0 < L →
  BlogPost.reachable (Source.served collection) (JS.Num L) props l →
  Api.posts (BlogPost.data props) = take (Z.to_nat L) collection →
  BlogPost.posts (BlogPost.state l) =
    take (Z.to_nat (BlogPost.page (BlogPost.state l) * L)) collection.
Proof.
  intros HL Hreach Hfirst.
  rewrite (reachable_posts collection L props l HL Hreach), Hfirst.
  destruct (reachable_awaiting _ _ _ _ Hreach) as (Hpage & _ & _).
  assert (0 ≤ (BlogPost.page (BlogPost.state l) - 1) * L) by nia.
  rewrite take_take_drop. f_equal. lia.
Qed.

(** X22. What the sentinel shows tells what a trigger does: under the prompt
    to scroll a visible sentinel sends the fetch of the next page, and under
    the spinner, under the end message, or without a sentinel it sends
    nothing and changes nothing. *)
Theorem indicator_tells_what_a_trigger_does (limit : JS.number)
    (props : BlogPost.Props) (l : BlogPost.Loader) :
  match BlogPostView.indicator props (BlogPost.state l) with
  | Some BlogPostView.ScrollToLoadMore =>
      (BlogPost.handle limit props l BlogPost.Intersecting).2 =
        Some {| Api.reqLimit := limit;
                Api.reqSkip :=
                  BlogPost.skipOf (BlogPost.page (BlogPost.state l) + 1) limit |}
  | Some BlogPostView.Spinner | Some BlogPostView.EndOfResults | None =>
      BlogPost.handle limit props l BlogPost.Intersecting = (l, None)
  end.
Proof.
  unfold BlogPostView.indicator. simpl.
  destruct (BlogPost.infiniteScroll props); [|done].
  destruct (BlogPost.isLoading (BlogPost.state l)) eqn:Hloading.
  - apply loadMorePosts_stopped. by left.
  - destruct (Z.ltb_spec (Z.of_nat (length (BlogPost.posts (BlogPost.state l))))
                (BlogPost.totalItems props)) as [Hmore|Hfull].
    + by rewrite loadMorePosts_sends.
    + apply loadMorePosts_stopped. by right.
Qed.

(** X23. Which limit each side reads from an address. The page component
    takes the parsed value when [limit] occurs once and 5 otherwise; the
    loader takes the parsed first value when it is not empty and the limit of
    the response otherwise. They read the same value when [limit] occurs
    once and is not empty. *)
Theorem limit_read_by_page_and_loader (query : list (string * string))
    (props : BlogPost.Props) :
  let pageLimit := (Page.parseParams (Next.searchParamsOf query)).2 in
  let loaderLimit := BlogPost.limit query props in
  let fromResponse := JS.Num (Api.limit (BlogPost.data props)) in
  match URLSearchParams.getAll "limit" query with
  | [] => pageLimit = JS.Num 5 ∧ loaderLimit = fromResponse
  | [value] =>
      pageLimit = JS.parseInt value
      ∧ loaderLimit = (if decide (value = "") then fromResponse else JS.parseInt value)
      ∧ (value ≠ "" → loaderLimit = pageLimit)
  | value :: _ :: _ =>
      pageLimit = JS.Num 5
      ∧ loaderLimit = (if decide (value = "") then fromResponse else JS.parseInt value)
  end.
Proof.
  intros pageLimit loaderLimit fromResponse.
  subst pageLimit loaderLimit fromResponse.
  rewrite parseParams_lookup, !lookup_searchParamsOf.
  unfold BlogPost.limit, URLSearchParams.get.
  destruct (URLSearchParams.getAll "limit" query) as [|value [|other values]];
    simpl; split_and!; try done.
  intros Hvalue. by rewrite decide_False.
Qed.

(** X25. With no items and a positive limit there are 0 pages, yet the window
    on page 1 still shows the button of page 1; a click on it is refused,
    Previous and Next are disabled, and the results line reads 0 - 0 of 0. *)
Theorem empty_collection_controls (limit : Z) (r : Router.t) :
  0 < limit →
  Pagination.totalPages 0 limit = 0
  ∧ Pagination.getPageNumbers 1 (Pagination.totalPages 0 limit) = [1]
  ∧ PaginationView.onToken (Pagination.totalPages 0 limit) limit 1 r = r
  ∧ PaginationView.previousDisabled 1 = true
  ∧ PaginationView.nextDisabled 1 (Pagination.totalPages 0 limit) = true
  ∧ PaginationView.showingFrom 0 limit 1 = 0
  ∧ PaginationView.showingTo 0 limit 1 = 0.
Proof.
  intros Hlimit.
  assert (Pagination.totalPages 0 limit = 0) as ->.
  { unfold Pagination.totalPages. simpl. by rewrite Z.div_0_l by lia. }
  unfold PaginationView.showingFrom, PaginationView.showingTo.
  split_and!; try done; lia.
Qed.

Lemma empty_collection_controls_witness :
  Pagination.getPageNumbers 1 (Pagination.totalPages 0 5) = [1]
  ∧ PaginationView.onToken (Pagination.totalPages 0 5) 5 1
      {| Router.address := []; Router.pushed := [] |}
    = {| Router.address := []; Router.pushed := [] |}.
Proof.
  destruct (empty_collection_controls 5 {| Router.address := []; Router.pushed := [] |})
    as (_ & Hwindow & Hclick & _); [lia|].
  split; [exact Hwindow | exact Hclick].
Defined.

Lemma limit_read_by_page_and_loader_witness :
  let props :=
    {| BlogPost.data := {| Api.posts := []; Api.total := 12;
                           Api.limit := 5; Api.skip := 0 |};
       BlogPost.infiniteScroll := true;
       BlogPost.totalItems := 12 |} in
  BlogPost.limit [("limit", "3")] props
    = (Page.parseParams (Next.searchParamsOf [("limit", "3")])).2.
Proof.
  intros props.
  pose proof (limit_read_by_page_and_loader [("limit", "3")] props) as H.
  simpl in H. destruct H as (_ & _ & Hsame). by apply Hsame.
Defined.

(* --------------------------------------------------------------------- *)
(** ** The loader when every observer call follows a render *)
(* --------------------------------------------------------------------- *)

(** When the component has re-rendered before every call of the observer,
    the callback has captured the current state, at most one call is
    suspended, and the component goes as the loader that tests and sets its
    state in one step. *)
Lemma rerendered_follows_loader (answers : Api.Request → list Api.Post → Prop)
    (limit : JS.number) (props : BlogPost.Props) (c : BlogPostRender.Component) :
  BlogPostRender.reachableRerendered answers limit props c →
  ∃ l, BlogPost.reachable answers limit props l
       ∧ BlogPostRender.state c = BlogPost.state l
       ∧ BlogPostRender.inflight c = option_list (BlogPost.awaiting l).
Proof.
  induction 1 as [|c Hreach IH|c i p newPosts Hreach IH Hp Hanswer|c i Hreach IH].
  - exists (BlogPost.initial props). split_and!; [constructor | done | done].
  - destruct IH as (l & Hl & Hstate & Hflight).
    exists (BlogPost.handle limit props l BlogPost.Intersecting).1.
    split; [by constructor|].
    destruct (reachable_awaiting _ _ _ _ Hl) as (_ & Hflag & _).
    simpl. destruct (BlogPost.infiniteScroll props); [|done].
    unfold BlogPostRender.loadMorePosts, BlogPost.loadMorePosts. simpl.
    rewrite Hstate.
    destruct (BlogPost.isLoading (BlogPost.state l)) eqn:Hloading; [done|].
    simpl. destruct (_ <=? _); [done|]. simpl.
    rewrite Hflight.
    destruct (BlogPost.awaiting l) as [p|] eqn:Hp; [|done].
    assert (false = true) by (apply Hflag; eauto). done.
  - destruct IH as (l & Hl & Hstate & Hflight).
    rewrite Hflight in Hp.
    destruct (BlogPost.awaiting l) as [p'|] eqn:Hawait; [|done].
    destruct i as [|i]; [|done]. simpl in Hp. injection Hp as ->.
    exists (BlogPost.handle limit props l (BlogPost.Resolved newPosts)).1.
    split; [by econstructor|].
    simpl. unfold BlogPostRender.settle, BlogPost.settle.
    rewrite Hflight, Hawait, Hstate. done.
  - destruct IH as (l & Hl & Hstate & Hflight).
    simpl. unfold BlogPostRender.settle. rewrite Hflight.
    destruct (BlogPost.awaiting l) as [p|] eqn:Hawait.
    + destruct i as [|i]; simpl.
      * exists (BlogPost.handle limit props l BlogPost.Rejected).1.
        split; [by constructor|].
        simpl. unfold BlogPost.settle. rewrite Hawait, Hstate. done.
      * exists l. by rewrite Hawait.
    + exists l. simpl. by rewrite Hawait.
Qed.

(** X17. When the component has re-rendered before every call of the
    observer: whatever the source answers, at most one fetch is awaited, the
    loading flag is set exactly while one is, and as long as one is awaited a
    call of the observer after a render sends no second fetch. *)
Theorem loader_single_flight (answers : Api.Request → list Api.Post → Prop)
    (limit : JS.number) (props : BlogPost.Props) (c : BlogPostRender.Component) :
  BlogPostRender.reachableRerendered answers limit props c →
  (length (BlogPostRender.inflight c) ≤ 1)%nat
  ∧ (BlogPost.isLoading (BlogPostRender.state c) = true
     ↔ BlogPostRender.inflight c ≠ [])
  ∧ (BlogPostRender.inflight c ≠ [] →
     BlogPostRender.handle limit props (BlogPostRender.render c)
       BlogPostRender.Intersecting = (BlogPostRender.render c, None)).
Proof.
  intros Hreach.
  destruct (rerendered_follows_loader _ _ _ _ Hreach) as (l & Hl & Hstate & Hflight).
  destruct (reachable_awaiting _ _ _ _ Hl) as (_ & Hflag & _).
  assert (BlogPost.isLoading (BlogPostRender.state c) = true
          ↔ BlogPostRender.inflight c ≠ []) as Hloading.
  { rewrite Hstate, Hflight, Hflag.
    destruct (BlogPost.awaiting l); simpl.
    - split; [done | by eauto].
    - split; [by intros [? ?] | done]. }
  split_and!.
  - rewrite Hflight. destruct (BlogPost.awaiting l); simpl; lia.
  - exact Hloading.
  - intros Hawaited. apply Hloading in Hawaited. simpl.
    destruct (BlogPost.infiniteScroll props); [|done].
    unfold BlogPostRender.loadMorePosts. simpl. by rewrite Hawaited.
Qed.

Lemma loader_single_flight_witness :
  let props :=
    {| BlogPost.data := {| Api.posts := []; Api.total := 12;
                           Api.limit := 5; Api.skip := 0 |};
       BlogPost.infiniteScroll := true;
       BlogPost.totalItems := 12 |} in
  let c := (BlogPostRender.handle (JS.Num 5) props
              (BlogPostRender.render (BlogPostRender.initial props))
              BlogPostRender.Intersecting).1 in
  BlogPostRender.handle (JS.Num 5) props (BlogPostRender.render c)
    BlogPostRender.Intersecting = (BlogPostRender.render c, None).
Proof.
  intros props c.
  apply (loader_single_flight (Api.paginated 12) (JS.Num 5) props c); [|done].
  apply BlogPostRender.rerendered_intersecting, BlogPostRender.rerendered_initial.
Defined.

Lemma rerendered_posts (collection : list Api.Post) (L : Z)
    (props : BlogPost.Props) (c : BlogPostRender.Component) :
  0 < L →
  BlogPostRender.reachableRerendered (Source.served collection) (JS.Num L) props c →
  1 ≤ BlogPost.page (BlogPostRender.state c)
  ∧ BlogPost.posts (BlogPostRender.state c) =
      Api.posts (BlogPost.data props)
      ++ take (Z.to_nat ((BlogPost.page (BlogPostRender.state c) - 1) * L))
           (drop (Z.to_nat L) collection)
  ∧ (Api.posts (BlogPost.data props) = take (Z.to_nat L) collection →
     BlogPost.posts (BlogPostRender.state c) =
       take (Z.to_nat (BlogPost.page (BlogPostRender.state c) * L)) collection).
Proof.
  intros HL Hreach.
  destruct (rerendered_follows_loader _ _ _ _ Hreach) as (l & Hl & -> & _).
  destruct (reachable_awaiting _ _ _ _ Hl) as (Hpage & _ & _).
  split_and!; [done | by apply (reachable_posts collection L props l) |].
  intros Hfirst. by apply (reachable_posts_prefix collection L props l).
Qed.

(** X21. When the component has re-rendered before every call of the
    observer, against a source that serves a fixed collection, with a
    positive integer limit [L]: every component that is reached holds the
    posts it was given first, followed by the first [(page - 1) * L] items
    that come after the first [L] items of the collection, in order. So when
    the posts given first are the first page, it holds the first [page * L]
    items of the collection: nothing is skipped, repeated or reordered. *)
Theorem loader_appends_pages_in_order (collection : list Api.Post) (L : Z)
    (props : BlogPost.Props) (c : BlogPostRender.Component) :
  0 < L →
  BlogPostRender.reachableRerendered (Source.served collection) (JS.Num L) props c →
  let st := BlogPostRender.state c in
  BlogPost.posts st =
    Api.posts (BlogPost.data props)
    ++ take (Z.to_nat ((BlogPost.page st - 1) * L)) (drop (Z.to_nat L) collection)
  ∧ (Api.posts (BlogPost.data props) = take (Z.to_nat L) collection →
     BlogPost.posts st = take (Z.to_nat (BlogPost.page st * L)) collection).
Proof.
  intros HL Hreach.
  by destruct (rerendered_posts collection L props c HL Hreach) as (_ & ? & ?).
Qed.

Lemma loader_appends_pages_in_order_witness :
  let post := λ i, {| Api.id := i; Api.title := "title"; Api.body := "body" |} in
  let collection := post <$> seqZ 1 7 in
  let props :=
    {| BlogPost.data := {| Api.posts := take 3 collection; Api.total := 7;
                           Api.limit := 3; Api.skip := 0 |};
       BlogPost.infiniteScroll := true;
       BlogPost.totalItems := 7 |} in
  let c1 := (BlogPostRender.handle (JS.Num 3) props
               (BlogPostRender.render (BlogPostRender.initial props))
               BlogPostRender.Intersecting).1 in
  let c2 := (BlogPostRender.handle (JS.Num 3) props c1
               (BlogPostRender.Resolved 0 (take 3 (drop 3 collection)))).1 in
  BlogPost.posts (BlogPostRender.state c2)
    = take (Z.to_nat (BlogPost.page (BlogPostRender.state c2) * 3)) collection.
Proof.
  intros post collection props c1 c2.
  apply (loader_appends_pages_in_order collection 3 props c2); [lia | | reflexivity].
  eapply BlogPostRender.rerendered_resolved; [| reflexivity | reflexivity].
  apply BlogPostRender.rerendered_intersecting, BlogPostRender.rerendered_initial.
Defined.

(** X24. When the component has re-rendered before every call of the
    observer and the posts given first are the second page of the collection
    (the address asked for page 2), the component whose page counter is 2
    holds that page twice: the first load fetches page 2 again. *)
Theorem loader_repeats_second_page (collection : list Api.Post) (L : Z)
    (props : BlogPost.Props) (c : BlogPostRender.Component) :
  0 < L →
  Api.posts (BlogPost.data props)
    = take (Z.to_nat L) (drop (Z.to_nat L) collection) →
  BlogPostRender.reachableRerendered (Source.served collection) (JS.Num L) props c →
  BlogPost.page (BlogPostRender.state c) = 2 →
  BlogPost.posts (BlogPostRender.state c) =
    Api.posts (BlogPost.data props) ++ Api.posts (BlogPost.data props).
Proof.
  intros HL Hsecond Hreach Hpage.
  destruct (rerendered_posts collection L props c HL Hreach) as (_ & -> & _).
  rewrite Hpage, Hsecond. do 2 f_equal. lia.
Qed.

Lemma loader_repeats_second_page_witness :
  let post := λ i, {| Api.id := i; Api.title := "title"; Api.body := "body" |} in
  let collection := post <$> seqZ 1 7 in
  let props :=
    {| BlogPost.data := {| Api.posts := post <$> [4; 5; 6]; Api.total := 7;
                           Api.limit := 3; Api.skip := 3 |};
       BlogPost.infiniteScroll := true;
       BlogPost.totalItems := 7 |} in
  let c1 := (BlogPostRender.handle (JS.Num 3) props
               (BlogPostRender.render (BlogPostRender.initial props))
               BlogPostRender.Intersecting).1 in
  let c2 := (BlogPostRender.handle (JS.Num 3) props c1
               (BlogPostRender.Resolved 0 (take 3 (drop 3 collection)))).1 in
  BlogPost.posts (BlogPostRender.state c2) = post <$> [4; 5; 6; 4; 5; 6].
Proof.
  intros post collection props c1 c2.
  apply (loader_repeats_second_page collection 3 props c2);
    [lia | reflexivity | | reflexivity].
  eapply BlogPostRender.rerendered_resolved; [| reflexivity | reflexivity].
  apply BlogPostRender.rerendered_intersecting, BlogPostRender.rerendered_initial.
Defined.

(** X26. When the component has re-rendered before every call of the
    observer, was given the first page of the collection it is served from,
    and [totalItems] is the size of that collection, the end message is
    shown only once every item of the collection is held, in order. *)
Theorem end_message_means_all_items (collection : list Api.Post) (L : Z)
    (props : BlogPost.Props) (c : BlogPostRender.Component) :
  0 < L →
  Api.posts (BlogPost.data props) = take (Z.to_nat L) collection →
  BlogPost.totalItems props = Z.of_nat (length collection) →
  BlogPostRender.reachableRerendered (Source.served collection) (JS.Num L) props c →
  BlogPostView.indicator props (BlogPostRender.state c)
    = Some BlogPostView.EndOfResults →
  BlogPost.posts (BlogPostRender.state c) = collection.
Proof.
  intros HL Hfirst Htotal Hreach Hend.
  destruct (rerendered_posts collection L props c HL Hreach) as (_ & _ & Hposts).
  specialize (Hposts Hfirst).
  unfold BlogPostView.indicator in Hend.
  destruct (BlogPost.infiniteScroll props); [|done].
  destruct (BlogPost.isLoading (BlogPostRender.state c)); [done|].
  destruct (Z.ltb_spec (Z.of_nat (length (BlogPost.posts (BlogPostRender.state c))))
              (BlogPost.totalItems props)) as [|Hfull]; [done|].
  rewrite Hposts in Hfull |- *. rewrite length_take in Hfull.
  apply take_ge. lia.
Qed.

Lemma end_message_means_all_items_witness :
  let post := λ i, {| Api.id := i; Api.title := "title"; Api.body := "body" |} in
  let collection := post <$> seqZ 1 5 in
  let props :=
    {| BlogPost.data := {| Api.posts := take 3 collection; Api.total := 5;
                           Api.limit := 3; Api.skip := 0 |};
       BlogPost.infiniteScroll := true;
       BlogPost.totalItems := 5 |} in
  let c1 := (BlogPostRender.handle (JS.Num 3) props
               (BlogPostRender.render (BlogPostRender.initial props))
               BlogPostRender.Intersecting).1 in
  let c2 := (BlogPostRender.handle (JS.Num 3) props c1
               (BlogPostRender.Resolved 0 (take 3 (drop 3 collection)))).1 in
  BlogPost.posts (BlogPostRender.state c2) = collection.
Proof.
  intros post collection props c1 c2.
  apply (end_message_means_all_items collection 3 props c2);
    [lia | reflexivity | reflexivity | | reflexivity].
  eapply BlogPostRender.rerendered_resolved; [| reflexivity | reflexivity].
  apply BlogPostRender.rerendered_intersecting, BlogPostRender.rerendered_initial.
Defined.

(** X27. When the component has re-rendered before every call of the
    observer and the posts given first are fewer than both the limit and the
    size of the collection (a short page, as the last page of an address
    with [page > 1]), the component never holds as many posts as the
    collection has: with [totalItems] the size of the collection it never
    shows the end message. *)
Theorem short_first_page_never_ends (collection : list Api.Post) (L : Z)
    (props : BlogPost.Props) (c : BlogPostRender.Component) :
  0 < L →
  Z.of_nat (length (Api.posts (BlogPost.data props)))
    < Z.min L (Z.of_nat (length collection)) →
  BlogPost.totalItems props = Z.of_nat (length collection) →
  BlogPostRender.reachableRerendered (Source.served collection) (JS.Num L) props c →
  (length (BlogPost.posts (BlogPostRender.state c)) < length collection)%nat
  ∧ BlogPostView.indicator props (BlogPostRender.state c)
      ≠ Some BlogPostView.EndOfResults.
Proof.
  intros HL Hshort Htotal Hreach.
  destruct (rerendered_posts collection L props c HL Hreach) as (_ & Hposts & _).
  assert (length (BlogPost.posts (BlogPostRender.state c)) < length collection)%nat
    as Hfewer.
  { rewrite Hposts, length_app, length_take, length_drop. lia. }
  split; [exact Hfewer|].
  unfold BlogPostView.indicator.
  destruct (BlogPost.infiniteScroll props); [|done].
  destruct (BlogPost.isLoading (BlogPostRender.state c)); [done|].
  destruct (Z.ltb_spec (Z.of_nat (length (BlogPost.posts (BlogPostRender.state c))))
              (BlogPost.totalItems props)); [done | lia].
Qed.

Lemma short_first_page_never_ends_witness :
  let post := λ i, {| Api.id := i; Api.title := "title"; Api.body := "body" |} in
  let collection := post <$> seqZ 1 7 in
  let props :=
    {| BlogPost.data := {| Api.posts := [post 7]; Api.total := 7;
                           Api.limit := 3; Api.skip := 6 |};
       BlogPost.infiniteScroll := true;
       BlogPost.totalItems := 7 |} in
  let c1 := (BlogPostRender.handle (JS.Num 3) props
               (BlogPostRender.render (BlogPostRender.initial props))
               BlogPostRender.Intersecting).1 in
  let c2 := (BlogPostRender.handle (JS.Num 3) props c1
               (BlogPostRender.Resolved 0 (take 3 (drop 3 collection)))).1 in
  (length (BlogPost.posts (BlogPostRender.state c2)) < length collection)%nat
  ∧ BlogPostView.indicator props (BlogPostRender.state c2)
      ≠ Some BlogPostView.EndOfResults.
Proof.
  intros post collection props c1 c2.
  apply (short_first_page_never_ends collection 3 props c2);
    [lia | vm_compute; reflexivity | reflexivity |].
  eapply BlogPostRender.rerendered_resolved; [| reflexivity | reflexivity].
  apply BlogPostRender.rerendered_intersecting, BlogPostRender.rerendered_initial.
Defined.

(** X28. When the component has re-rendered before every call of the
    observer, was given the first page of the collection it is served from,
    and [totalItems] is the size of that collection, every fetch that a call
    of the observer sends after a render is answered by at least one post,
    and the posts held plus the answer do not exceed [totalItems]. *)
Theorem loader_never_asks_beyond_end (collection : list Api.Post) (L : Z)
    (props : BlogPost.Props) (c c1 : BlogPostRender.Component)
    (req : Api.Request) (newPosts : list Api.Post) :
  0 < L →
  Api.posts (BlogPost.data props) = take (Z.to_nat L) collection →
  BlogPost.totalItems props = Z.of_nat (length collection) →
  BlogPostRender.reachableRerendered (Source.served collection) (JS.Num L) props c →
  BlogPostRender.handle (JS.Num L) props (BlogPostRender.render c)
    BlogPostRender.Intersecting = (c1, Some req) →
  Source.served collection req newPosts →
  (1 ≤ length newPosts)%nat
  ∧ Z.of_nat (length (BlogPost.posts (BlogPostRender.state c)) + length newPosts)
      ≤ BlogPost.totalItems props.
Proof.
  intros HL Hfirst Htotal Hreach Hsent Hserved.
  destruct (rerendered_posts collection L props c HL Hreach) as (Hpage & _ & Hposts).
  specialize (Hposts Hfirst).
  simpl in Hsent. destruct (BlogPost.infiniteScroll props); [|done].
  unfold BlogPostRender.loadMorePosts in Hsent. simpl in Hsent.
  destruct (BlogPost.isLoading (BlogPostRender.state c)); [done|]. simpl in Hsent.
  destruct (Z.leb_spec (BlogPost.totalItems props)
              (Z.of_nat (length (BlogPost.posts (BlogPostRender.state c)))))
    as [|Hmore]; [done|].
  injection Hsent as <- <-.
  unfold Source.served in Hserved. simpl in Hserved. subst newPosts.
  rewrite Hposts in Hmore |- *.
  rewrite length_take in Hmore. rewrite !length_take, length_drop.
  assert (0 ≤ BlogPost.page (BlogPostRender.state c) * L) by nia.
  lia.
Qed.

Lemma loader_never_asks_beyond_end_witness :
  let post := λ i, {| Api.id := i; Api.title := "title"; Api.body := "body" |} in
  let collection := post <$> seqZ 1 5 in
  let props :=
    {| BlogPost.data := {| Api.posts := take 3 collection; Api.total := 5;
                           Api.limit := 3; Api.skip := 0 |};
       BlogPost.infiniteScroll := true;
       BlogPost.totalItems := 5 |} in
  let newPosts := take 3 (drop 3 collection) in
  (1 ≤ length newPosts)%nat
  ∧ Z.of_nat (length (BlogPost.posts
                        (BlogPostRender.state (BlogPostRender.initial props)))
              + length newPosts) ≤ BlogPost.totalItems props.
Proof.
  intros post collection props newPosts.
  eapply (loader_never_asks_beyond_end collection 3 props
            (BlogPostRender.initial props));
    [lia | reflexivity | reflexivity | apply BlogPostRender.rerendered_initial
    | reflexivity | reflexivity].
Defined.
